(** * sonic-plus: the service lifecycle manager of [sonic_plus/main.py]

    A shallow embedding of the four commands of the SONiC+ package manager
    ([show], [install], [remove], [addrepo]) and of the registry store,
    together with the properties of the install / remove / addrepo state
    machine and of the listing.

    Modelling decisions, all of them visible in the definitions below:

    - The persisted registry ([REPO_PATH]) is a JSON object of JSON
      objects with string leaves: [gmap string (gmap string string)].
      The file is kept in its own component of the world, [repo_file],
      which is [None] exactly when [os.path.isfile(REPO_PATH)] is false.
      [json.load] / [json.dump] on that file are taken to round-trip.
    - The operating system ([os], [open]) and the container runtime
      ([docker]) are interfaces: the commands are written against the
      classes [FileSystem] and [DockerClient] and the theorems hold for
      every implementation of them.  Concrete implementations are given in
      [Module Mock] and serve the closed examples.
    - A command is a function from worlds to a result and a world: a
      state-and-exception monad [M].  An exception keeps the world reached
      so far, as in Python.
    - [click.echo] appends to [stdout]; every call to a collaborator is
      recorded in [calls] before its outcome is known, so that the order
      of side effects can be stated.
    - The path of a file-system call is the string the source builds;
      the file system resolves it.  A service name with [..] components
      can make a generated path resolve to [REPO_PATH]: [repo_file]
      stands for the registry file as long as no call is made on such a
      path.  [reaches_registry] decides the names for which one is; the
      properties of [install] and [remove] about the registry file are
      stated for the other names, and [Module Host], whose file system
      resolves paths and holds the registry file, evaluates the commands
      on a name that reaches it.  Links are not followed.
    - The pull stream is taken whole: [pull] gives its lines and the
      state of the daemon after them, and the loop of [install] runs over
      the lines.  No property depends on the state of the daemon after a
      loop that raised.
    - Reading an existing registry file and writing it are taken to
      succeed, and building the docker clients ([docker.from_env],
      [docker.APIClient]) to have no effect. *)

From Stdlib Require Import String ZArith List.
From stdpp Require Import gmap strings list fin_maps.

Open Scope string_scope.
Open Scope Z_scope.

(** ** Constants of the module *)

Definition VARLIB_PATH : string := "/var/lib/sonic-plus/".
Definition REPO_PATH : string := VARLIB_PATH ++ "repo".
Definition SCHEMA_PATH : string := "/schema.json".
Definition INSTALL_PATH : string := "/usr/lib/python2.7/dist-packages/".
Definition CLI_TEMPLATE_PATH : string := "/var/lib/sonic-plus/sonic-plus-cli.j2".
Definition ENTRY_POINT_TEMPLATE_PATH : string :=
  "/var/lib/sonic-plus/sonic-plus-entry-point.j2".
Definition BASH_COMPLETION_TEMPLATE_PATH : string :=
  "/var/lib/sonic-plus/sonic-plus-bash-completion.j2".

(** [stat.S_IEXEC] *)
Definition S_IEXEC : Z := 64.

(** ** Data *)

(** One registry row: a JSON object, keys [repo], [description] and,
    once written by [install] or [remove], [status]. *)
Abbreviation Entry := (gmap string string).

(** The registry document: service name to row. *)
Abbreviation Registry := (gmap string (gmap string string)).

(** The values the code compares [status] with and writes to it. *)
Definition STATUS_INSTALLED : string := "Installed".
Definition STATUS_NOT_INSTALLED : string := "Not installed".

(** A decoded line of the pull stream; only [progressDetail] is read. *)
Record PullLine := { progressDetail : option (gmap string Z) }.

(** Keyword arguments of [containers.run]. *)
Record RunOpts := {
  opt_remove : bool;
  opt_entrypoint : option string;
  opt_detach : bool;
  opt_tty : bool;
  opt_name : option string
}.

(** Python exceptions the commands can end with.  [Abort] is
    [click.Abort]; the others are never caught outside a bare [except]. *)
Inductive exn :=
| Abort
| KeyError (key : string)
| ValueError
| ZeroDivisionError
| OSError (path : string)
| IOError (path : string)
| TemplateError
| DockerException.

Inductive result (A : Type) :=
| Ok (a : A)
| Raise (e : exn).
Arguments Ok {A} a.
Arguments Raise {A} e.

(** What [click.echo] was given. *)
Inductive output :=
| Text (s : string)
| DictRepr (d : Registry).

(** Calls to the collaborators: [os] and [open] on every path other than
    [REPO_PATH], the docker client, and the write of the registry file. *)
Inductive call :=
| DockerPull (repository tag : string)
| DockerRun (image : string) (command : option string) (opts : RunOpts)
| DockerContainerGet (name : string)
| DockerContainerRemove (name : string) (force : bool)
| DockerImageRemove (image : string)
| OsPathIsfile (path : string) (found : bool)
| FileRead (path : string)
| OsMakedirs (path : string)
| OsRemove (path : string)
| OsRmdir (path : string)
| OsChmod (path : string) (mode : Z)
| FileWrite (path : string) (content : string)
| RegistryDump (repo : Registry).

(** ** Collaborator interfaces *)

(** The part of [os] / [open] the commands use, on every path other than
    [REPO_PATH].  [None] is the call raising; the file system is then as
    it was. *)
Class FileSystem (F : Type) := {
  isfile : string -> F -> bool;
  makedirs : string -> F -> option F;
  unlink : string -> F -> option F;
  rmdir : string -> F -> option F;
  chmod : string -> Z -> F -> option F;
  read : string -> F -> option string;
  write : string -> string -> F -> option F
}.

(** The part of the docker SDK the commands use.  A failed call may
    still have changed the daemon's state. *)
Class DockerClient (D : Type) := {
  pull : string -> string -> D -> option (list PullLine) * D;
  run : string -> option string -> RunOpts -> D -> option string * D;
  container_get : string -> D -> bool;
  container_remove : string -> bool -> D -> bool * D;
  image_remove : string -> D -> bool * D
}.

(** [json.loads] on a container's output and [Template(t).render(schema=s)].
    Both are pure; [None] is the call raising. *)
Class Templating (Schema : Type) := {
  json_loads : string -> option Schema;
  render : string -> Schema -> option string
}.

(** ** The world and the command monad *)

Section Lifecycle.
Context {F D Schema : Type}.
Context `{!FileSystem F} `{!DockerClient D} `{!Templating Schema}.

Record World := mkWorld {
  repo_file : option Registry;
  fs : F;
  docker : D;
  stdout : list output;
  calls : list call
}.

Definition M (A : Type) : Type := World -> result A * World.

Definition ret {A} (a : A) : M A := fun w => (Ok a, w).

Definition bind {A B} (m : M A) (k : A -> M B) : M B :=
  fun w =>
    match m w with
    | (Ok a, w') => k a w'
    | (Raise e, w') => (Raise e, w')
    end.

Definition raise {A} (e : exn) : M A := fun w => (Raise e, w).

(** [try: m  except: h] with a bare [except]. *)
Definition try_except {A} (m h : M A) : M A :=
  fun w =>
    match m w with
    | (Ok a, w') => (Ok a, w')
    | (Raise _, w') => h w'
    end.

Notation "x <- m ;; k" := (bind m (fun x => k))
  (at level 100, m at next level, right associativity).
Notation "m ;; k" := (bind m (fun _ => k))
  (at level 100, right associativity).

(** *** Primitive steps *)

Definition record (c : call) (w : World) : World :=
  mkWorld (repo_file w) (fs w) (docker w) (stdout w) (calls w ++ [c]).

Definition print (o : output) (w : World) : World :=
  mkWorld (repo_file w) (fs w) (docker w) (stdout w ++ [o]) (calls w).

Definition with_fs (f : F) (w : World) : World :=
  mkWorld (repo_file w) f (docker w) (stdout w) (calls w).

Definition with_docker (d : D) (w : World) : World :=
  mkWorld (repo_file w) (fs w) d (stdout w) (calls w).

Definition with_repo_file (r : Registry) (w : World) : World :=
  mkWorld (Some r) (fs w) (docker w) (stdout w) (calls w).

Definition echo (s : string) : M unit := fun w => (Ok tt, print (Text s) w).
Definition echo_dict (d : Registry) : M unit :=
  fun w => (Ok tt, print (DictRepr d) w).

(** [click.echo(msg); raise click.Abort()] *)
Definition abort {A} (msg : string) : M A := echo msg ;; raise Abort.

(** A mutating file-system call: recorded, then attempted. *)
Definition fs_call (c : call) (op : F -> option F) (e : exn) : M unit :=
  fun w =>
    let w1 := record c w in
    match op (fs w1) with
    | Some f' => (Ok tt, with_fs f' w1)
    | None => (Raise e, w1)
    end.

Definition os_makedirs (p : string) : M unit :=
  fs_call (OsMakedirs p) (makedirs p) (OSError p).
Definition os_remove (p : string) : M unit :=
  fs_call (OsRemove p) (unlink p) (OSError p).
Definition os_rmdir (p : string) : M unit :=
  fs_call (OsRmdir p) (rmdir p) (OSError p).
Definition os_chmod (p : string) (mode : Z) : M unit :=
  fs_call (OsChmod p mode) (chmod p mode) (OSError p).
Definition open_write (p content : string) : M unit :=
  fs_call (FileWrite p content) (write p content) (IOError p).

(** A query is recorded with its answer. *)
Definition os_path_isfile (p : string) : M bool :=
  fun w =>
    let b := isfile p (fs w) in
    (Ok b, record (OsPathIsfile p b) w).

Definition open_read (p : string) : M string :=
  fun w =>
    let w1 := record (FileRead p) w in
    match read p (fs w1) with
    | Some s => (Ok s, w1)
    | None => (Raise (IOError p), w1)
    end.

(** A docker call: recorded, then attempted; the daemon's new state is
    kept whether or not the call raised. *)
Definition docker_call {A} (c : call) (op : D -> option A * D) : M A :=
  fun w =>
    let w1 := record c w in
    match op (docker w1) with
    | (Some a, d') => (Ok a, with_docker d' w1)
    | (None, d') => (Raise DockerException, with_docker d' w1)
    end.

Definition as_option (r : bool * D) : option unit * D :=
  (if fst r then Some tt else None, snd r).

Definition api_pull (repository tag : string) : M (list PullLine) :=
  docker_call (DockerPull repository tag) (pull repository tag).

Definition containers_run (image : string) (command : option string)
    (opts : RunOpts) : M string :=
  docker_call (DockerRun image command opts) (run image command opts).

(** [containers.get(name).remove(force=force)] *)
Definition containers_get_remove (name : string) (force : bool) : M unit :=
  docker_call (DockerContainerGet name)
    (fun d => (if container_get name d then Some tt else None, d)) ;;
  docker_call (DockerContainerRemove name force)
    (fun d => as_option (container_remove name force d)).

Definition images_remove (image : string) : M unit :=
  docker_call (DockerImageRemove image)
    (fun d => as_option (image_remove image d)).

(** [d[key]] on a row. *)
Definition getitem (d : Entry) (key : string) : M string :=
  match d !! key with
  | Some v => ret v
  | None => raise (KeyError key)
  end.

Definition loads (s : string) : M Schema :=
  match json_loads s with
  | Some v => ret v
  | None => raise ValueError
  end.

Definition template_render (t : string) (schema : Schema) : M string :=
  match render t schema with
  | Some s => ret s
  | None => raise TemplateError
  end.

(** [with open(REPO_PATH, 'w') as f: json.dump(repo, f)] *)
Definition dump_repo (repo : Registry) : M unit :=
  fun w => (Ok tt, with_repo_file repo (record (RegistryDump repo) w)).

(** *** Messages *)

Definition MSG_EMPTY : string :=
  "SONiC+ repository list is empty. Try adding some using 'sonic-plus newrepo'".
Definition msg_not_found (name : string) : string :=
  "SONiC+ service '" ++ name ++ "' not found".
Definition msg_already_installed (name : string) : string :=
  "SONiC+ service '" ++ name ++ "' is already installed".
Definition msg_not_installed (name : string) : string :=
  "SONiC+ service '" ++ name ++ "' is not installed".
Definition MSG_PULL_FAILED : string :=
  "Cannot pull docker image, please check the repository availability".
Definition MSG_NO_SCHEMA : string :=
  "Cannot locate a CONFIG_DB schema file. Is it a SONiC+ docker image?".
Definition MSG_RUN_FAILED : string := "Cannot run a Docker image".
Definition MSG_CONTAINER_REMOVE_FAILED : string := "Cannot remove a Docker image".
Definition MSG_IMAGE_REMOVE_FAILED : string := "Cannot remove docker image".
Definition MSG_REPO_EXISTS : string := "Repository already exists".

(** ** [get_repo] *)

Definition get_repo (abort_on_empty : bool) : M Registry :=
  fun w =>
    match repo_file w with
    | Some repo => ret repo w
    | None =>
        if abort_on_empty then abort MSG_EMPTY w
        else ret ∅ w
    end.

(** ** [addrepo] *)

(** [repo in repo_dict]: membership in a dict is membership in its keys. *)
Definition contains (d : Registry) (key : string) : bool :=
  bool_decide (is_Some (d !! key)).

Definition new_metadata (repo : string) : Entry :=
  <["description" := repo]> (<["repo" := repo]> ∅).

Definition addrepo (name repo : string) : M unit :=
  repo_dict <- get_repo false ;;
  if contains repo_dict repo then abort MSG_REPO_EXISTS
  else
    let metadata := new_metadata repo in
    let repo_dict := <[name := metadata]> repo_dict in
    echo "Repos" ;;
    echo_dict repo_dict ;;
    dump_repo repo_dict.

(** ** [install] *)

(** ['status' in repo[name] and repo[name]['status'] == "Installed"] *)
Definition status_is_installed (entry : Entry) : bool :=
  match entry !! "status" with
  | Some s => bool_decide (s = STATUS_INSTALLED)
  | None => false
  end.

(** The body of the loop over the pull stream.  [bar.update] only moves
    the progress bar, but its argument is evaluated: a line with
    [current] and without [total], or with [total] zero, raises. *)
Definition bar_update (line : PullLine) : M unit :=
  match progressDetail line with
  | Some detail =>
      match detail !! "current" with
      | Some current =>
          match detail !! "total" with
          | Some total =>
              if bool_decide (total = 0) then raise ZeroDivisionError
              else let _ := current * 100 / total in ret tt
          | None => raise (KeyError "total")
          end
      | None => ret tt
      end
  | None => ret tt
  end.

Fixpoint for_each {A} (body : A -> M unit) (l : list A) : M unit :=
  match l with
  | [] => ret tt
  | x :: l' => body x ;; for_each body l'
  end.

Definition cat_opts : RunOpts :=
  {| opt_remove := true; opt_entrypoint := Some "/bin/cat";
     opt_detach := false; opt_tty := false; opt_name := None |}.

Definition service_opts (name : string) : RunOpts :=
  {| opt_remove := true; opt_entrypoint := None;
     opt_detach := true; opt_tty := true; opt_name := Some name |}.

Definition NEWLINE : string := String (Ascii.ascii_of_nat 10) EmptyString.

Definition MSG_DONE_INSTALL : string :=
  "Done." ++ NEWLINE ++ NEWLINE ++
  "Run '. /usr/share/bash-completion/bash_completion' to update CLI completion for your bash session.".

(** Lines 96-119: the install directory, the CLI program and package
    marker in it, the entry point and the completion script. *)
Definition generate_cli (name : string) (schema : Schema) : M unit :=
  echo "Generating CLI..." ;;
  let package_path := INSTALL_PATH ++ "/" ++ name in
  os_makedirs package_path ;;
  cli_tm_str <- open_read CLI_TEMPLATE_PATH ;;
  cli_str <- template_render cli_tm_str schema ;;
  open_write (package_path ++ "/main.py") cli_str ;;
  open_write (package_path ++ "/__init__.py") EmptyString ;;
  entry_point_tm_str <- open_read ENTRY_POINT_TEMPLATE_PATH ;;
  entry_point_str <- template_render entry_point_tm_str schema ;;
  open_write ("/usr/bin/" ++ name) entry_point_str ;;
  os_chmod ("/usr/bin/" ++ name) (Z.lor (Z.lor S_IEXEC S_IEXEC) S_IEXEC) ;;
  bash_completion_tm_str <- open_read BASH_COMPLETION_TEMPLATE_PATH ;;
  bash_completion_str <- template_render bash_completion_tm_str schema ;;
  open_write ("/etc/bash_completion.d/" ++ name) bash_completion_str.

Definition install (name : string) : M unit :=
  repo <- get_repo true ;;
  match repo !! name with
  | None => abort (msg_not_found name)
  | Some entry =>
      if status_is_installed entry then abort (msg_already_installed name)
      else
        try_except
          (image <- getitem entry "repo" ;;
           lines <- api_pull image "latest" ;;
           for_each bar_update lines)
          (abort MSG_PULL_FAILED) ;;
        output <- try_except
          (image <- getitem entry "repo" ;;
           containers_run image (Some (" " ++ SCHEMA_PATH)) cat_opts)
          (abort MSG_NO_SCHEMA) ;;
        schema <- loads output ;;
        generate_cli name schema ;;
        try_except
          (image <- getitem entry "repo" ;;
           containers_run image None (service_opts name))
          (abort MSG_RUN_FAILED) ;;
        let repo := <[name := <["status" := STATUS_INSTALLED]> entry]> repo in
        dump_repo repo ;;
        echo MSG_DONE_INSTALL
  end.

(** ** [remove] *)

(** ['status' in repo[name] and repo[name]['status'] != "Installed"] *)
Definition status_is_other (entry : Entry) : bool :=
  match entry !! "status" with
  | Some s => negb (bool_decide (s = STATUS_INSTALLED))
  | None => false
  end.

(** [if os.path.isfile(p): os.remove(p)] *)
Definition remove_if_isfile (p : string) : M unit :=
  b <- os_path_isfile p ;;
  if b then os_remove p else ret tt.

(** Lines 148-158: the teardown of what [generate_cli] wrote. *)
Definition remove_cli (name : string) : M unit :=
  echo "removing CLI..." ;;
  let package_path := INSTALL_PATH ++ "/" ++ name in
  os_remove (package_path ++ "/main.py") ;;
  remove_if_isfile (package_path ++ "/main.pyc") ;;
  os_remove (package_path ++ "/__init__.py") ;;
  remove_if_isfile (package_path ++ "/__init__.pyc") ;;
  os_remove ("/usr/bin/" ++ name) ;;
  os_rmdir package_path ;;
  os_remove ("/etc/bash_completion.d/" ++ name).

Definition remove (name : string) : M unit :=
  repo <- get_repo true ;;
  match repo !! name with
  | None => abort (msg_not_found name)
  | Some entry =>
      if status_is_other entry then abort (msg_not_installed name)
      else
        remove_cli name ;;
        try_except
          (containers_get_remove name true)
          (abort MSG_CONTAINER_REMOVE_FAILED) ;;
        echo "removing Docker image..." ;;
        try_except
          (image <- getitem entry "repo" ;;
           images_remove image)
          (abort MSG_IMAGE_REMOVE_FAILED) ;;
        let repo := <[name := <["status" := STATUS_NOT_INSTALLED]> entry]> repo in
        dump_repo repo ;;
        echo "Done."
  end.

(** ** Vocabulary of the properties *)

(** The registry document as [get_repo(abort_on_empty=False)] reads it. *)
Definition registry_of (w : World) : Registry := default ∅ (repo_file w).

(** A step that leaves the registry file alone, whatever its outcome. *)
Definition keeps_registry {A} (m : M A) : Prop :=
  forall w, repo_file (snd (m w)) = repo_file w.

(** A command that either returns, having written [X] to the registry
    file as its last call, or raises with the registry file as it was. *)
Definition commits (X : Registry) (m : M unit) : Prop :=
  forall w,
    match m w with
    | (Ok _, w') =>
        repo_file w' = Some X /\ last (calls w') = Some (RegistryDump X)
    | (Raise _, w') => repo_file w' = repo_file w
    end.

(** The command ended in [click.Abort] right after echoing [msg]. *)
Definition aborted_with (msg : string) (out : result unit * World) : Prop :=
  fst out = Raise Abort /\ last (stdout (snd out)) = Some (Text msg).

(** The calls of a completed [generate_cli]. *)
Definition generate_calls (name cli entry_point completion : string)
    : list call :=
  let package_path := INSTALL_PATH ++ "/" ++ name in
  [ OsMakedirs package_path;
    FileRead CLI_TEMPLATE_PATH;
    FileWrite (package_path ++ "/main.py") cli;
    FileWrite (package_path ++ "/__init__.py") EmptyString;
    FileRead ENTRY_POINT_TEMPLATE_PATH;
    FileWrite ("/usr/bin/" ++ name) entry_point;
    OsChmod ("/usr/bin/" ++ name) S_IEXEC;
    FileRead BASH_COMPLETION_TEMPLATE_PATH;
    FileWrite ("/etc/bash_completion.d/" ++ name) completion ].

(** The calls of a completed [install], the registry write last. *)
Definition install_calls (name image cli entry_point completion : string)
    (written : Registry) : list call :=
  [ DockerPull image "latest";
    DockerRun image (Some " /schema.json") cat_opts ] ++
  generate_calls name cli entry_point completion ++
  [ DockerRun image None (service_opts name);
    RegistryDump written ].

(** The calls of a completed [remove_cli]; [pyc1] and [pyc2] are the
    answers of the two existence checks. *)
Definition teardown_calls (name : string) (pyc1 pyc2 : bool) : list call :=
  let package_path := INSTALL_PATH ++ "/" ++ name in
  [ OsRemove (package_path ++ "/main.py");
    OsPathIsfile (package_path ++ "/main.pyc") pyc1 ] ++
  (if pyc1 then [ OsRemove (package_path ++ "/main.pyc") ] else []) ++
  [ OsRemove (package_path ++ "/__init__.py");
    OsPathIsfile (package_path ++ "/__init__.pyc") pyc2 ] ++
  (if pyc2 then [ OsRemove (package_path ++ "/__init__.pyc") ] else []) ++
  [ OsRemove ("/usr/bin/" ++ name);
    OsRmdir package_path;
    OsRemove ("/etc/bash_completion.d/" ++ name) ].

(** The teardown order as the specification words it: the removal of
    the install directory is the last call of [remove_cli]. *)
Definition rmdir_is_last (name : string) (w : World) : Prop :=
  last (calls (snd (remove_cli name w))) =
  Some (OsRmdir (INSTALL_PATH ++ "/" ++ name)).

(** The calls of a completed [remove], the registry write last. *)
Definition remove_calls (name image : string) (pyc1 pyc2 : bool)
    (written : Registry) : list call :=
  teardown_calls name pyc1 pyc2 ++
  [ DockerContainerGet name;
    DockerContainerRemove name true;
    DockerImageRemove image;
    RegistryDump written ].

End Lifecycle.

(** ** [show]

    The table is laid out by [tabulate], a function of the rows and the
    header.  [for entry in repo] visits the rows of the registry in the
    order of [map_to_list]; what is proved below does not depend on that
    order. *)

Section Presentation.
Context {F D : Type}.
Variable tabulate : list (list string) -> list string -> string.

Notation "x <- m ;; k" := (bind m (fun x => k))
  (at level 100, m at next level, right associativity).
Notation "m ;; k" := (bind m (fun _ => k))
  (at level 100, right associativity).

Definition REPO_HEADER : list string :=
  ["NAME"; "REPO"; "DESCRIPTION"; "STATUS"].

(** Lines 48-53: the row of one service; [row] is [repo[entry]]. *)
Definition repo_line (item : string * Entry) : @M F D (list string) :=
  let entry := fst item in
  let row := snd item in
  r <- getitem row "repo" ;;
  d <- getitem row "description" ;;
  ret [entry; r; d;
       match row !! "status" with
       | Some status => status
       | None => STATUS_NOT_INSTALLED
       end].

(** The loop that fills [repo_lines]. *)
Fixpoint collect {A B} (body : A -> @M F D B) (l : list A)
    : @M F D (list B) :=
  match l with
  | [] => ret []
  | x :: l' =>
      y <- body x ;;
      ys <- collect body l' ;;
      ret (y :: ys)
  end.

Definition show : @M F D unit :=
  repo <- get_repo true ;;
  repo_lines <- collect repo_line (map_to_list repo) ;;
  echo (tabulate repo_lines REPO_HEADER).

(** *** More vocabulary *)

(** A row [show] can print: it has a repository and a description. *)
Definition printable (row : Entry) : Prop :=
  is_Some (row !! "repo") /\ is_Some (row !! "description").

(** The line of the table for service [name] with row [row]. *)
Definition line_of (name : string) (row : Entry) : list string :=
  [name; default EmptyString (row !! "repo");
   default EmptyString (row !! "description");
   default STATUS_NOT_INSTALLED (row !! "status")].

(** A line of the pull stream on which [bar.update] raises. *)
Definition bad_progress (line : PullLine) : Prop :=
  exists detail current,
    progressDetail line = Some detail /\
    detail !! "current" = Some current /\
    (detail !! "total" = None \/ detail !! "total" = Some 0).

End Presentation.

(** ** Paths that reach the registry file

    The commands build their paths from the service name as it is given.
    A name with [..] components can make one of these paths resolve to
    [REPO_PATH]; the calls on it then act on the registry file itself.
    The component [repo_file] of the world is the registry file only for
    names that do not: [reaches_registry] decides which ones do. *)

(** The components of a path, split at the slashes; [cur] is the
    component being read. *)
Fixpoint components (s cur : string) : list string :=
  match s with
  | EmptyString => [cur]
  | String c s' =>
      if String.eqb (String c EmptyString) "/" then cur :: components s' EmptyString
      else components s' (cur ++ String c EmptyString)
  end.

(** One step of the resolution of an absolute path. *)
Definition resolve (stack : list string) (c : string) : list string :=
  if String.eqb c EmptyString || String.eqb c "." then stack
  else if String.eqb c ".." then removelast stack
  else stack ++ [c].

(** The absolute path without empty, [.] and [..] components (links are
    not followed). *)
Definition resolve_path (p : string) : string :=
  match fold_left resolve (components p EmptyString) [] with
  | [] => "/"
  | stack => fold_right (fun c rest => "/" ++ c ++ rest) EmptyString stack
  end.

(** The paths [install] and [remove] create, write, change or delete
    for a service. *)
Definition mutated_paths (name : string) : list string :=
  let package_path := INSTALL_PATH ++ "/" ++ name in
  [ package_path;
    package_path ++ "/main.py";
    package_path ++ "/main.pyc";
    package_path ++ "/__init__.py";
    package_path ++ "/__init__.pyc";
    "/usr/bin/" ++ name;
    "/etc/bash_completion.d/" ++ name ].

Definition reaches_registry (name : string) : bool :=
  existsb (fun p => String.eqb (resolve_path p) (resolve_path REPO_PATH))
    (mutated_paths name).

(** A recorded call that creates, writes, changes or deletes what is at
    the path of the registry file.  The write of the registry itself
    ([RegistryDump]) is not one of them. *)
Definition clobbers_registry (c : call) : bool :=
  match c with
  | OsMakedirs p | OsRemove p | OsRmdir p | OsChmod p _ | FileWrite p _ =>
      String.eqb (resolve_path p) (resolve_path REPO_PATH)
  | _ => false
  end.

Definition spares_registry (c : call) : Prop := clobbers_registry c = false.

(** ** Completed generation and teardown, call by call *)

Section Completion.
Context {F D Schema : Type}.
Context `{!FileSystem F} `{!DockerClient D} `{!Templating Schema}.




(** Whatever its outcome, the command has made calls that satisfy [P]
    and no other. *)
Definition calls_only {A} (P : call -> Prop) (m : @M F D A) : Prop :=
  forall w, exists l, calls (snd (m w)) = (calls w ++ l)%list /\ Forall P l.

End Completion.

(** ** Concrete collaborators

    A small host: a map from paths to nodes for the file system, a daemon
    with a remote registry, pulled images and named containers, and a
    recogniser of JSON objects.  They implement the three interfaces and
    are used by the closed examples only. *)

Module Mock.

Inductive node :=
| Dir
| File (content : string) (mode : Z).

(** Some path lies below directory [p]. *)
Definition has_child (p : string) (f : gmap string node) : bool :=
  existsb (fun q => String.prefix (p ++ "/") q) (map fst (map_to_list f)).

Definition mock_isfile (p : string) (f : gmap string node) : bool :=
  match f !! p with
  | Some (File _ _) => true
  | _ => false
  end.

Definition mock_makedirs (p : string) (f : gmap string node)
    : option (gmap string node) :=
  match f !! p with
  | Some _ => None
  | None => Some (<[p := Dir]> f)
  end.

Definition mock_unlink (p : string) (f : gmap string node)
    : option (gmap string node) :=
  match f !! p with
  | Some (File _ _) => Some (delete p f)
  | _ => None
  end.

Definition mock_rmdir (p : string) (f : gmap string node)
    : option (gmap string node) :=
  match f !! p with
  | Some Dir => if has_child p f then None else Some (delete p f)
  | _ => None
  end.

Definition mock_chmod (p : string) (mode : Z) (f : gmap string node)
    : option (gmap string node) :=
  match f !! p with
  | Some (File c _) => Some (<[p := File c mode]> f)
  | _ => None
  end.

Definition mock_read (p : string) (f : gmap string node) : option string :=
  match f !! p with
  | Some (File c _) => Some c
  | _ => None
  end.

Definition mock_write (p content : string) (f : gmap string node)
    : option (gmap string node) :=
  match f !! p with
  | Some Dir => None
  | Some (File _ mode) => Some (<[p := File content mode]> f)
  | None => Some (<[p := File content 420]> f)
  end.

#[export] Instance mock_fs : FileSystem (gmap string node) := {|
  isfile := mock_isfile;
  makedirs := mock_makedirs;
  unlink := mock_unlink;
  rmdir := mock_rmdir;
  chmod := mock_chmod;
  read := mock_read;
  write := mock_write
|}.

(** An image is what [cat /schema.json] prints in it, if the file is
    there. *)
Record Daemon := {
  remote : gmap string (option string);
  images : gmap string (option string);
  containers : gmap string string
}.

(** The stream of a pull: a status line and a progress line. *)
Definition pull_stream : list PullLine :=
  [ {| progressDetail := None |};
    {| progressDetail :=
         Some (<["total" := 2048]> (<["current" := 1024]> ∅)) |} ].

Definition mock_pull (repository tag : string) (d : Daemon)
    : option (list PullLine) * Daemon :=
  match remote d !! repository with
  | Some image =>
      (Some pull_stream,
       {| remote := remote d;
          images := <[repository := image]> (images d);
          containers := containers d |})
  | None => (None, d)
  end.

Definition mock_run (image : string) (command : option string)
    (opts : RunOpts) (d : Daemon) : option string * Daemon :=
  match images d !! image with
  | None => (None, d)
  | Some schema =>
      if opt_detach opts then
        match opt_name opts with
        | Some name =>
            match containers d !! name with
            | Some _ => (None, d)
            | None =>
                (Some name,
                 {| remote := remote d;
                    images := images d;
                    containers := <[name := image]> (containers d) |})
            end
        | None => (Some EmptyString, d)
        end
      else (schema, d)
  end.

Definition mock_container_get (name : string) (d : Daemon) : bool :=
  bool_decide (is_Some (containers d !! name)).

Definition mock_container_remove (name : string) (force : bool) (d : Daemon)
    : bool * Daemon :=
  match containers d !! name with
  | Some _ =>
      (true,
       {| remote := remote d;
          images := images d;
          containers := delete name (containers d) |})
  | None => (false, d)
  end.

Definition mock_image_remove (image : string) (d : Daemon) : bool * Daemon :=
  match images d !! image with
  | Some _ =>
      (true,
       {| remote := remote d;
          images := delete image (images d);
          containers := containers d |})
  | None => (false, d)
  end.

#[export] Instance mock_docker : DockerClient Daemon := {|
  pull := mock_pull;
  run := mock_run;
  container_get := mock_container_get;
  container_remove := mock_container_remove;
  image_remove := mock_image_remove
|}.

(** A schema is accepted when it opens a JSON object; a template is
    rendered by appending the schema to it. *)
#[export] Instance mock_templating : Templating string := {|
  json_loads := fun s => if String.prefix "{" s then Some s else None;
  render := fun t schema => Some (t ++ schema)
|}.

(** The three templates shipped with the tool. *)
Definition fs0 : gmap string node :=
  <[CLI_TEMPLATE_PATH := File "cli:" 420]>
  (<[ENTRY_POINT_TEMPLATE_PATH := File "entry:" 420]>
  (<[BASH_COMPLETION_TEMPLATE_PATH := File "completion:" 420]> ∅)).

(** A remote offering a service image and an image whose
    [/schema.json] is not JSON. *)
Definition docker0 : Daemon :=
  {| remote := <["example.com/acl-svc" := Some "{}"]>
               (<["example.com/web" := Some "<html>"]> ∅);
     images := ∅;
     containers := ∅ |}.

(** A fresh host: no registry file yet. *)
Definition world0 : World :=
  mkWorld None fs0 docker0 [] [].

Definition exec {A} (m : M (F := gmap string node) (D := Daemon) A)
    (w : World) : World := snd (m w).

(** The registry after [addrepo acl example.com/acl-svc]. *)
Definition world_added : World :=
  exec (addrepo "acl" "example.com/acl-svc") world0.

(** The host after a completed [install acl]. *)
Definition world_installed : World := exec (install "acl") world_added.

(** A registry whose only service has an image without a JSON schema. *)
Definition world_web : World := exec (addrepo "web" "example.com/web") world0.

(** The registry with both services added, none installed. *)
Definition world_two_rows : World :=
  exec (addrepo "web" "example.com/web") world_added.

(** The daemon of [world_web] once the image has been pulled. *)
Definition docker_pulled_web : Daemon :=
  snd (mock_pull "example.com/web" "latest" docker0).

(** A host where a container named [acl] already runs: [install acl]
    writes its artifacts and then fails to start the container. *)
Definition docker_busy : Daemon :=
  {| remote := remote docker0;
     images := <["debian" := None]> ∅;
     containers := <["acl" := "debian"]> ∅ |}.

Definition world_half_installed : World :=
  exec (install "acl")
    (exec (addrepo "acl" "example.com/acl-svc")
       (mkWorld None fs0 docker_busy [] [])).

End Mock.

(** More of the concrete host: a layout for [show] and further states. *)

Module MockTable.
Import Mock.

(** One line per row, cells separated by a bar, the header first. *)
Definition mock_tabulate (rows : list (list string)) (header : list string)
    : string :=
  String.concat NEWLINE (map (String.concat "|") (header :: rows)).

(** The host after [install acl] and [remove acl]. *)
Definition world_removed : World := exec (remove "acl") world_installed.

(** A pull stream whose progress line has a zero total. *)
Definition stream_zero_total : list PullLine :=
  [ {| progressDetail := Some (<["total" := 0]> (<["current" := 10]> ∅)) |} ].

(** A registry with a row that lacks its description. *)
Definition world_no_description : World :=
  mkWorld (Some (<["acl" := <["repo" := "example.com/acl-svc"]> ∅]> ∅))
    fs0 docker0 [] [].

(** A registry with a row that lacks its repository. *)
Definition world_no_repo : World :=
  mkWorld (Some (<["acl" := <["description" := "an image"]> ∅]> ∅))
    fs0 docker0 [] [].

(** A registry whose only service has a reference the remote does not
    offer. *)
Definition world_ghost : World :=
  exec (addrepo "ghost" "example.com/none") world0.

(** A remote offering a base image without [/schema.json], and a
    registry with that image as its only service. *)
Definition docker_plain : Daemon :=
  {| remote := <["debian" := None]> ∅; images := ∅; containers := ∅ |}.

Definition world_debian : World :=
  exec (addrepo "base" "debian") (mkWorld None fs0 docker_plain [] []).

Definition debian_pulled : Daemon :=
  snd (mock_pull "debian" "latest" docker_plain).





(** The installed host after its container was removed by hand, and
    after its image was. *)
Definition world_container_gone : World :=
  mkWorld (repo_file world_installed) (fs world_installed)
    {| remote := remote docker0;
       images := images (docker world_installed);
       containers := ∅ |} [] [].

Definition world_image_gone : World :=
  mkWorld (repo_file world_installed) (fs world_installed)
    {| remote := remote docker0;
       images := ∅;
       containers := containers (docker world_installed) |} [] [].

(** A daemon that pulls anything, with a progress line that has a zero
    total, and can do nothing else. *)
Inductive Stub := stub.

#[export] Instance stub_docker : DockerClient Stub := {|
  pull := fun _ _ d => (Some stream_zero_total, d);
  run := fun _ _ _ d => (None, d);
  container_get := fun _ _ => false;
  container_remove := fun _ _ d => (false, d);
  image_remove := fun _ d => (false, d)
|}.

Definition world_stub : @World (gmap string node) Stub :=
  mkWorld (Some (<["acl" := new_metadata "example.com/acl-svc"]> ∅))
    fs0 stub [] [].

End MockTable.

(** A host that resolves paths and holds the registry file in its file
    system, to evaluate the commands on a name that reaches it. *)

Module Host.
Import Mock.

(** A file is the registry document or a text. *)
Inductive hnode :=
| HDir
| HDoc (document : Registry)
| HText (content : string) (mode : Z).

(** The file system, keyed by resolved paths. *)
Inductive HostFs := host_fs (nodes : gmap string hnode).

Definition nodes (f : HostFs) : gmap string hnode :=
  match f with host_fs m => m end.

Definition node_at (p : string) (f : HostFs) : option hnode :=
  nodes f !! resolve_path p.


Definition below (p : string) (f : HostFs) : bool :=
  existsb (fun q => String.prefix (resolve_path p ++ "/") q)
    (map fst (map_to_list (nodes f))).

#[export] Instance host_files : FileSystem HostFs := {|
  isfile p f :=
    match node_at p f with
    | Some (HDoc _) | Some (HText _ _) => true
    | _ => false
    end;
  makedirs p f :=
    match node_at p f with
    | Some _ => None
    | None => Some (host_fs (<[resolve_path p := HDir]> (nodes f)))
    end;
  unlink p f :=
    match node_at p f with
    | Some (HDoc _) | Some (HText _ _) =>
        Some (host_fs (delete (resolve_path p) (nodes f)))
    | _ => None
    end;
  rmdir p f :=
    match node_at p f with
    | Some HDir =>
        if below p f then None
        else Some (host_fs (delete (resolve_path p) (nodes f)))
    | _ => None
    end;
  chmod p mode f :=
    match node_at p f with
    | Some (HText c _) =>
        Some (host_fs (<[resolve_path p := HText c mode]> (nodes f)))
    | Some (HDoc _) | Some HDir =>
        Some f
    | None => None
    end;
  read p f :=
    match node_at p f with
    | Some (HText c _) => Some c
    | _ => None
    end;
  write p content f :=
    match node_at p f with
    | Some HDir => None
    | _ => Some (host_fs (<[resolve_path p := HText content 420]> (nodes f)))
    end
|}.

(** A container name has no slash; the daemon refuses any other. *)
Definition valid_container_name (name : string) : bool :=
  match components name EmptyString with
  | [_] => true
  | _ => false
  end.

Inductive HostDaemon := host_daemon (d : Daemon).

Definition daemon (h : HostDaemon) : Daemon :=
  match h with host_daemon d => d end.

Definition lift {A} (r : A * Daemon) : A * HostDaemon :=
  (fst r, host_daemon (snd r)).

#[export] Instance host_docker : DockerClient HostDaemon := {|
  pull repository tag h := lift (mock_pull repository tag (daemon h));
  run image command opts h :=
    match opt_name opts with
    | Some name =>
        if valid_container_name name
        then lift (mock_run image command opts (daemon h))
        else (None, h)
    | None => lift (mock_run image command opts (daemon h))
    end;
  container_get name h := mock_container_get name (daemon h);
  container_remove name force h :=
    lift (mock_container_remove name force (daemon h));
  image_remove image h := lift (mock_image_remove image (daemon h))
|}.







End Host.

(** * Properties *)

Section Properties.
Context {F D Schema : Type}.
Context `{!FileSystem F} `{!DockerClient D} `{!Templating Schema}.

Implicit Types w : @World F D.
Local Open Scope list_scope.
Local Abbreviation Cmd := (@M F D).

(** ** The monad *)

Lemma bind_ok {A B} (m : Cmd A) (k : A -> Cmd B) w (b : B) w' :
  bind m k w = (Ok b, w') ->
  exists a w1, m w = (Ok a, w1) /\ k a w1 = (Ok b, w').
Proof.
  unfold bind. destruct (m w) as [[a|e] w1]; intros Hk.
  - exists a, w1. split; [reflexivity | exact Hk].
  - discriminate Hk.
Qed.

Lemma bind_step {A B} (m : Cmd A) (k : A -> Cmd B) w (a : A) w1 :
  m w = (Ok a, w1) -> bind m k w = k a w1.
Proof. intros Hm. unfold bind. rewrite Hm. reflexivity. Qed.

Lemma bind_stop {A B} (m : Cmd A) (k : A -> Cmd B) w e w1 :
  m w = (Raise e, w1) -> bind m k w = (Raise e, w1).
Proof. intros Hm. unfold bind. rewrite Hm. reflexivity. Qed.

Lemma try_ok {A} (m h : Cmd A) w (a : A) w1 :
  m w = (Ok a, w1) -> try_except m h w = (Ok a, w1).
Proof. intros Hm. unfold try_except. rewrite Hm. reflexivity. Qed.

Lemma try_caught {A} (m h : Cmd A) w e w1 :
  m w = (Raise e, w1) -> try_except m h w = h w1.
Proof. intros Hm. unfold try_except. rewrite Hm. reflexivity. Qed.

Lemma abort_eq {A} (msg : string) w :
  abort (A := A) msg w = (Raise Abort, print (Text msg) w).
Proof. reflexivity. Qed.

Lemma run_pair {A} (x : result A * @World F D) (r : result A) :
  fst x = r -> x = (r, snd x).
Proof. destruct x as [r0 w0]. simpl. intros ->. reflexivity. Qed.

(** ** Steps that leave the registry file alone *)

Lemma keeps_ret {A} (a : A) : keeps_registry (F := F) (D := D) (ret a).
Proof. intros w. reflexivity. Qed.

Lemma keeps_raise {A} (e : exn) :
  keeps_registry (F := F) (D := D) (raise (A := A) e).
Proof. intros w. reflexivity. Qed.

Lemma keeps_echo (s : string) : keeps_registry (F := F) (D := D) (echo s).
Proof. intros w. reflexivity. Qed.

Lemma keeps_bind {A B} (m : Cmd A) (k : A -> Cmd B) :
  keeps_registry m -> (forall a, keeps_registry (k a)) ->
  keeps_registry (bind m k).
Proof.
  intros Hm Hk w. unfold bind. specialize (Hm w).
  destruct (m w) as [[a|e] w1]; simpl in *.
  - rewrite (Hk a w1). exact Hm.
  - exact Hm.
Qed.

Lemma keeps_try {A} (m h : Cmd A) :
  keeps_registry m -> keeps_registry h -> keeps_registry (try_except m h).
Proof.
  intros Hm Hh w. unfold try_except. specialize (Hm w).
  destruct (m w) as [[a|e] w1]; simpl in *.
  - exact Hm.
  - rewrite (Hh w1). exact Hm.
Qed.

Lemma keeps_abort {A} (msg : string) :
  keeps_registry (F := F) (D := D) (abort (A := A) msg).
Proof. intros w. reflexivity. Qed.

Lemma keeps_fs_call (c : call) (op : F -> option F) (e : exn) :
  keeps_registry (D := D) (fs_call c op e).
Proof. intros w. unfold fs_call. simpl. destruct (op (fs w)); reflexivity. Qed.

Lemma keeps_docker_call {A} (c : call) (op : D -> option A * D) :
  keeps_registry (F := F) (docker_call c op).
Proof.
  intros w. unfold docker_call. simpl.
  destruct (op (docker w)) as [[a|] d']; reflexivity.
Qed.

Lemma keeps_open_read (p : string) : keeps_registry (D := D) (open_read p).
Proof. intros w. unfold open_read. simpl. destruct (read p (fs w)); reflexivity. Qed.

Lemma keeps_isfile (p : string) : keeps_registry (D := D) (os_path_isfile p).
Proof. intros w. reflexivity. Qed.

Lemma keeps_getitem (d : Entry) (key : string) :
  keeps_registry (F := F) (D := D) (getitem d key).
Proof. intros w. unfold getitem. destruct (d !! key); reflexivity. Qed.

Lemma keeps_loads (s : string) : keeps_registry (F := F) (D := D) (loads s).
Proof. intros w. unfold loads. destruct (json_loads s); reflexivity. Qed.

Lemma keeps_template_render (t : string) (schema : Schema) :
  keeps_registry (F := F) (D := D) (template_render t schema).
Proof. intros w. unfold template_render. destruct (render t schema); reflexivity. Qed.

Lemma keeps_bar_update (line : PullLine) :
  keeps_registry (F := F) (D := D) (bar_update line).
Proof.
  intros w. unfold bar_update.
  destruct (progressDetail line) as [detail|]; [|reflexivity].
  destruct (detail !! "current"); [|reflexivity].
  destruct (detail !! "total"); [|reflexivity].
  case_bool_decide; reflexivity.
Qed.

Lemma keeps_for_each {A} (body : A -> Cmd unit) (l : list A) :
  (forall a, keeps_registry (F := F) (D := D) (body a)) ->
  keeps_registry (for_each body l).
Proof.
  intros Hbody. induction l as [|x l IH]; simpl.
  - apply keeps_ret.
  - apply keeps_bind; [apply Hbody | intros _; exact IH].
Qed.

Create HintDb keeps.
Hint Resolve keeps_ret keeps_raise keeps_echo keeps_abort keeps_fs_call
  keeps_docker_call keeps_open_read keeps_isfile keeps_getitem keeps_loads
  keeps_template_render keeps_bar_update : keeps.

Ltac keeps :=
  unfold generate_cli, remove_cli, remove_if_isfile, api_pull, containers_run,
    containers_get_remove, images_remove, os_makedirs, os_remove, os_rmdir,
    os_chmod, open_write;
  repeat first
    [ apply keeps_bind; [|intros ?]
    | apply keeps_try
    | apply keeps_for_each; intros ?
    | match goal with |- keeps_registry (if ?b then _ else _) => destruct b end
    | solve [auto with keeps] ].


Lemma keeps_remove_cli (name : string) :
  keeps_registry (F := F) (D := D) (remove_cli name).
Proof. keeps. Qed.

(** ** Commands that write the registry file last *)

Lemma commits_bind {A} (X : Registry) (m : Cmd A) (k : A -> Cmd unit) :
  keeps_registry m -> (forall a, commits X (k a)) -> commits X (bind m k).
Proof.
  intros Hm Hk w. unfold bind. specialize (Hm w).
  destruct (m w) as [[a|e] w1]; simpl in *.
  - specialize (Hk a w1). destruct (k a w1) as [[u|e] w2].
    + exact Hk.
    + rewrite Hk. exact Hm.
  - exact Hm.
Qed.

Lemma commits_dump (X : Registry) (s : string) :
  commits (F := F) (D := D) X (bind (dump_repo X) (fun _ => echo s)).
Proof.
  intros w. simpl. split; [reflexivity|]. apply last_snoc.
Qed.

Lemma get_repo_some (b : bool) (repo : Registry) w :
  repo_file w = Some repo -> get_repo b w = (Ok repo, w).
Proof. intros Hfile. unfold get_repo. rewrite Hfile. reflexivity. Qed.

Ltac commits :=
  cbv zeta;
  repeat (apply commits_bind; [solve [keeps] | intros ?]);
  apply commits_dump.

(** [install] on a registry it can read: the outcome of the command is
    either a raise with the registry file untouched, or the new status
    written last. *)
Lemma install_outcome (name : string) w :
  match install name w with
  | (Ok _, w') =>
      exists repo entry,
        repo_file w = Some repo /\ repo !! name = Some entry /\
        status_is_installed entry = false /\
        repo_file w' =
          Some (<[name := <["status" := STATUS_INSTALLED]> entry]> repo) /\
        last (calls w') =
          Some (RegistryDump
                  (<[name := <["status" := STATUS_INSTALLED]> entry]> repo))
  | (Raise _, w') => repo_file w' = repo_file w
  end.
Proof.
  unfold install. destruct (repo_file w) as [repo|] eqn:Hfile.
  - rewrite (bind_step _ _ w repo w (get_repo_some true repo w Hfile)).
    destruct (repo !! name) as [entry|] eqn:Hname; [|exact Hfile].
    destruct (status_is_installed entry) eqn:Hstatus; [exact Hfile|].
    match goal with
    | |- match ?tail w with _ => _ end =>
        assert (Htail :
          commits (<[name := <["status" := STATUS_INSTALLED]> entry]> repo) tail)
          by commits;
        specialize (Htail w); destruct (tail w) as [[u|e] w']
    end.
    + exists repo, entry. tauto.
    + rewrite Htail. exact Hfile.
  - unfold bind, get_repo. rewrite Hfile. exact Hfile.
Qed.

Lemma remove_outcome (name : string) w :
  match remove name w with
  | (Ok _, w') =>
      exists repo entry,
        repo_file w = Some repo /\ repo !! name = Some entry /\
        status_is_other entry = false /\
        repo_file w' =
          Some (<[name := <["status" := STATUS_NOT_INSTALLED]> entry]> repo) /\
        last (calls w') =
          Some (RegistryDump
                  (<[name := <["status" := STATUS_NOT_INSTALLED]> entry]> repo))
  | (Raise _, w') => repo_file w' = repo_file w
  end.
Proof.
  unfold remove. destruct (repo_file w) as [repo|] eqn:Hfile.
  - rewrite (bind_step _ _ w repo w (get_repo_some true repo w Hfile)).
    destruct (repo !! name) as [entry|] eqn:Hname; [|exact Hfile].
    destruct (status_is_other entry) eqn:Hstatus; [exact Hfile|].
    match goal with
    | |- match ?tail w with _ => _ end =>
        assert (Htail :
          commits (<[name := <["status" := STATUS_NOT_INSTALLED]> entry]> repo)
            tail)
          by commits;
        specialize (Htail w); destruct (tail w) as [[u|e] w']
    end.
    + exists repo, entry. tauto.
    + rewrite Htail. exact Hfile.
  - unfold bind, get_repo. rewrite Hfile. exact Hfile.
Qed.

(** ** What a completed step has called *)

Lemma fs_call_ok (c : call) (op : F -> option F) (e : exn) w u w' :
  fs_call (D := D) c op e w = (Ok u, w') -> calls w' = calls w ++ [c].
Proof.
  unfold fs_call. simpl. destruct (op (fs w)); intros Hrun; inversion Hrun.
  reflexivity.
Qed.

Lemma docker_call_ok {A} (c : call) (op : D -> option A * D) w (a : A) w' :
  docker_call (F := F) c op w = (Ok a, w') -> calls w' = calls w ++ [c].
Proof.
  unfold docker_call. simpl.
  destruct (op (docker w)) as [[x|] d']; intros Hrun; inversion Hrun.
  reflexivity.
Qed.

Lemma open_read_ok (p : string) w (s : string) w' :
  open_read (D := D) p w = (Ok s, w') -> calls w' = calls w ++ [FileRead p].
Proof.
  unfold open_read. simpl. destruct (read p (fs w)); intros Hrun; inversion Hrun.
  reflexivity.
Qed.

Lemma echo_ok (s : string) w u w' :
  echo s w = (Ok u, w') -> calls w' = calls w.
Proof. intros Hrun. inversion Hrun. reflexivity. Qed.

Lemma template_render_ok (t : string) (schema : Schema) w (s : string) w' :
  template_render t schema w = (Ok s, w') -> w' = w.
Proof.
  unfold template_render. destruct (render t schema); intros Hrun;
    inversion Hrun. reflexivity.
Qed.

Lemma loads_ok (s : string) w (schema : Schema) w' :
  loads s w = (Ok schema, w') -> w' = w.
Proof.
  unfold loads. destruct (json_loads s); intros Hrun; inversion Hrun.
  reflexivity.
Qed.

Lemma getitem_ok (d : Entry) (key : string) w (v : string) w' :
  getitem d key w = (Ok v, w') -> d !! key = Some v /\ w' = w.
Proof.
  unfold getitem. destruct (d !! key); intros Hrun; inversion Hrun.
  split; reflexivity.
Qed.

Lemma bar_update_world (line : PullLine) w : snd (bar_update line w) = w.
Proof.
  unfold bar_update.
  destruct (progressDetail line) as [detail|]; [|reflexivity].
  destruct (detail !! "current"); [|reflexivity].
  destruct (detail !! "total"); [|reflexivity].
  case_bool_decide; reflexivity.
Qed.

Lemma for_each_bar_update_world (lines : list PullLine) w :
  snd (for_each bar_update lines w) = w.
Proof.
  induction lines as [|line lines IH]; simpl; [reflexivity|].
  unfold bind. pose proof (bar_update_world line w) as Hline.
  destruct (bar_update line w) as [[u|e] w1]; simpl in Hline; subst w1.
  - exact IH.
  - reflexivity.
Qed.

Lemma try_abort_ok {A} (m : Cmd A) (msg : string) w (a : A) w' :
  try_except m (abort msg) w = (Ok a, w') -> m w = (Ok a, w').
Proof.
  unfold try_except. destruct (m w) as [[x|e] w1]; intros Hrun.
  - exact Hrun.
  - discriminate Hrun.
Qed.

(** Peel a completed sequence into its completed steps. *)
Ltac peel H :=
  repeat
    match type of H with
    | bind _ _ _ = (Ok _, _) =>
        let a := fresh "a" in
        let w1 := fresh "w" in
        let Hs := fresh "Hs" in
        apply bind_ok in H as (a & w1 & Hs & H); cbv beta in H
    end.

(** Turn each completed primitive step into the calls it added. *)
Ltac calls_of_steps :=
  repeat match goal with
  | H : fs_call _ _ _ _ = (Ok _, _) |- _ => apply fs_call_ok in H
  | H : docker_call _ _ _ = (Ok _, _) |- _ => apply docker_call_ok in H
  | H : open_read _ _ = (Ok _, _) |- _ => apply open_read_ok in H
  | H : echo _ _ = (Ok _, _) |- _ => apply echo_ok in H
  | H : template_render _ _ _ = (Ok _, _) |- _ =>
      apply template_render_ok in H; subst
  | H : loads _ _ = (Ok _, _) |- _ => apply loads_ok in H; subst
  end.

Ltac chain_calls :=
  repeat match goal with
  | H : calls ?x = _ |- context [calls ?x] => rewrite H; clear H
  end;
  rewrite <- ?app_assoc.

Lemma generate_cli_calls (name : string) (schema : Schema) w u w' :
  generate_cli name schema w = (Ok u, w') ->
  exists cli entry_point completion,
    calls w' = calls w ++ generate_calls name cli entry_point completion.
Proof.
  unfold generate_cli, os_makedirs, open_write, os_chmod. intros Hrun.
  peel Hrun. calls_of_steps.
  eexists _, _, _. chain_calls. reflexivity.
Qed.

(** Every run of [remove_cli], completed or not, calls an initial part
    of [teardown_calls], and all of it when it completes. *)
Lemma remove_cli_trace (name : string) w :
  exists pyc1 pyc2 l,
    calls (snd (remove_cli name w)) = calls w ++ l /\
    l `prefix_of` teardown_calls name pyc1 pyc2 /\
    (forall u, fst (remove_cli name w) = Ok u ->
               l = teardown_calls name pyc1 pyc2).
Proof.
  unfold remove_cli, remove_if_isfile, os_remove, os_rmdir, os_path_isfile,
    fs_call, bind, echo.
  cbv zeta. simpl.
  repeat match goal with
  | |- context [match unlink ?p ?f with _ => _ end] =>
      destruct (unlink p f) eqn:?; simpl
  | |- context [if isfile ?p ?f then _ else _] =>
      destruct (isfile p f) eqn:?; simpl
  | |- context [match rmdir ?p ?f with _ => _ end] =>
      destruct (rmdir p f) eqn:?; simpl
  end;
  rewrite <- ?app_assoc;
  let finish b1 b2 :=
    exists b1, b2; eexists; split; [reflexivity|];
    split;
    [ eexists; unfold teardown_calls; simpl; reflexivity
    | intros u Hu; first [discriminate Hu | reflexivity] ] in
  first [ solve [finish true true] | solve [finish true false]
        | solve [finish false true] | solve [finish false false] ].
Qed.

Lemma dump_repo_ok (X : Registry) w u w' :
  dump_repo (F := F) (D := D) X w = (Ok u, w') ->
  calls w' = calls w ++ [RegistryDump X] /\ repo_file w' = Some X.
Proof. intros Hrun. inversion Hrun. split; reflexivity. Qed.

Lemma for_each_bar_update_ok (lines : list PullLine) w u w' :
  for_each bar_update lines w = (Ok u, w') -> w' = w.
Proof.
  intros Hrun. pose proof (for_each_bar_update_world lines w) as Hw.
  rewrite Hrun in Hw. exact Hw.
Qed.

Ltac calls_of_run :=
  repeat match goal with
  | H : try_except _ (abort _) _ = (Ok _, _) |- _ =>
      apply try_abort_ok in H; peel H
  | H : getitem _ _ _ = (Ok _, _) |- _ =>
      apply getitem_ok in H as [? ?]; subst
  | H : for_each bar_update _ _ = (Ok _, _) |- _ =>
      apply for_each_bar_update_ok in H; subst
  | H : dump_repo _ _ = (Ok _, _) |- _ => apply dump_repo_ok in H as [H _]
  | H : generate_cli _ _ _ = (Ok _, _) |- _ =>
      apply generate_cli_calls in H as (? & ? & ? & H)
  | H1 : ?d !! ?k = Some ?x, H2 : ?d !! ?k = Some ?y |- _ =>
      rewrite H1 in H2; inversion H2; subst; clear H2
  end;
  unfold api_pull, containers_run, containers_get_remove, images_remove in *;
  repeat match goal with
  | H : bind _ _ _ = (Ok _, _) |- _ => peel H
  end;
  calls_of_steps.

Lemma install_trace (name : string) w u w' :
  install name w = (Ok u, w') ->
  exists repo entry image cli entry_point completion,
    repo_file w = Some repo /\ repo !! name = Some entry /\
    entry !! "repo" = Some image /\
    calls w' =
      calls w ++
      install_calls name image cli entry_point completion
        (<[name := <["status" := STATUS_INSTALLED]> entry]> repo).
Proof.
  intros Hrun. unfold install in Hrun.
  destruct (repo_file w) as [repo|] eqn:Hfile.
  2:{ unfold bind, get_repo in Hrun. rewrite Hfile in Hrun. discriminate Hrun. }
  rewrite (bind_step _ _ w repo w (get_repo_some true repo w Hfile)) in Hrun.
  destruct (repo !! name) as [entry|] eqn:Hname; [|discriminate Hrun].
  destruct (status_is_installed entry); [discriminate Hrun|].
  cbv zeta in Hrun. peel Hrun. calls_of_run.
  eexists _, _, _, _, _, _.
  split; [reflexivity|]. split; [eassumption|]. split; [eassumption|].
  chain_calls. reflexivity.
Qed.

Lemma remove_cli_calls (name : string) w u w' :
  remove_cli name w = (Ok u, w') ->
  exists pyc1 pyc2, calls w' = calls w ++ teardown_calls name pyc1 pyc2.
Proof.
  intros Hrun.
  destruct (remove_cli_trace name w) as (pyc1 & pyc2 & l & Hcalls & _ & Hall).
  rewrite Hrun in Hcalls, Hall. simpl in Hcalls, Hall.
  exists pyc1, pyc2. rewrite Hcalls, (Hall u eq_refl). reflexivity.
Qed.

Lemma remove_trace (name : string) w u w' :
  remove name w = (Ok u, w') ->
  exists repo entry image pyc1 pyc2,
    repo_file w = Some repo /\ repo !! name = Some entry /\
    entry !! "repo" = Some image /\
    calls w' =
      calls w ++
      remove_calls name image pyc1 pyc2
        (<[name := <["status" := STATUS_NOT_INSTALLED]> entry]> repo).
Proof.
  intros Hrun. unfold remove in Hrun.
  destruct (repo_file w) as [repo|] eqn:Hfile.
  2:{ unfold bind, get_repo in Hrun. rewrite Hfile in Hrun. discriminate Hrun. }
  rewrite (bind_step _ _ w repo w (get_repo_some true repo w Hfile)) in Hrun.
  destruct (repo !! name) as [entry|] eqn:Hname; [|discriminate Hrun].
  destruct (status_is_other entry); [discriminate Hrun|].
  cbv zeta in Hrun. peel Hrun.
  match goal with
  | H : remove_cli _ _ = (Ok _, _) |- _ =>
      apply remove_cli_calls in H as (pyc1 & pyc2 & H)
  end.
  calls_of_run.
  eexists _, _, _, pyc1, pyc2.
  split; [reflexivity|]. split; [eassumption|]. split; [eassumption|].
  chain_calls. unfold remove_calls. rewrite <- ?app_assoc. reflexivity.
Qed.

(** ** What a completed step has done *)

















(** ** Calls that spare the registry file *)

Lemma only_ret {A} (P : call -> Prop) (a : A) :
  calls_only (F := F) (D := D) P (ret a).
Proof. intros w. exists []. split; [symmetry; apply app_nil_r | constructor]. Qed.

Lemma only_raise {A} (P : call -> Prop) (e : exn) :
  calls_only (F := F) (D := D) P (raise (A := A) e).
Proof. intros w. exists []. split; [symmetry; apply app_nil_r | constructor]. Qed.

Lemma only_echo (P : call -> Prop) (s : string) :
  calls_only (F := F) (D := D) P (echo s).
Proof. intros w. exists []. split; [symmetry; apply app_nil_r | constructor]. Qed.

Lemma only_abort {A} (P : call -> Prop) (msg : string) :
  calls_only (F := F) (D := D) P (abort (A := A) msg).
Proof. intros w. exists []. split; [symmetry; apply app_nil_r | constructor]. Qed.

Lemma only_bind {A B} (P : call -> Prop) (m : Cmd A) (k : A -> Cmd B) :
  calls_only P m -> (forall a, calls_only P (k a)) -> calls_only P (bind m k).
Proof.
  intros Hm Hk w. unfold bind. destruct (Hm w) as (l1 & H1 & HP1).
  destruct (m w) as [[a|e] w1]; simpl in H1.
  - destruct (Hk a w1) as (l2 & H2 & HP2). exists (l1 ++ l2). split.
    + rewrite H2, H1, app_assoc. reflexivity.
    + apply Forall_app_2; assumption.
  - exists l1. split; assumption.
Qed.

Lemma only_try {A} (P : call -> Prop) (m h : Cmd A) :
  calls_only P m -> calls_only P h -> calls_only P (try_except m h).
Proof.
  intros Hm Hh w. unfold try_except. destruct (Hm w) as (l1 & H1 & HP1).
  destruct (m w) as [[a|e] w1]; simpl in H1.
  - exists l1. split; assumption.
  - destruct (Hh w1) as (l2 & H2 & HP2). exists (l1 ++ l2). split.
    + rewrite H2, H1, app_assoc. reflexivity.
    + apply Forall_app_2; assumption.
Qed.

Lemma only_fs_call (P : call -> Prop) (c : call) (op : F -> option F)
    (e : exn) :
  P c -> calls_only (D := D) P (fs_call c op e).
Proof.
  intros Hc w. exists [c]. unfold fs_call. simpl.
  destruct (op (fs w)); (split; [reflexivity | repeat constructor; exact Hc]).
Qed.

Lemma only_docker_call {A} (P : call -> Prop) (c : call)
    (op : D -> option A * D) :
  P c -> calls_only (F := F) P (docker_call c op).
Proof.
  intros Hc w. exists [c]. unfold docker_call. simpl.
  destruct (op (docker w)) as [[a|] d'];
    (split; [reflexivity | repeat constructor; exact Hc]).
Qed.

Lemma only_open_read (P : call -> Prop) (p : string) :
  P (FileRead p) -> calls_only (D := D) P (open_read p).
Proof.
  intros Hc w. exists [FileRead p]. unfold open_read. simpl.
  destruct (read p (fs w)); (split; [reflexivity | repeat constructor; exact Hc]).
Qed.

Lemma only_isfile (P : call -> Prop) (p : string) :
  (forall found, P (OsPathIsfile p found)) ->
  calls_only (D := D) P (os_path_isfile p).
Proof.
  intros Hc w. exists [OsPathIsfile p (isfile p (fs w))].
  split; [reflexivity | repeat constructor; apply Hc].
Qed.

Lemma only_dump (P : call -> Prop) (X : Registry) :
  P (RegistryDump X) -> calls_only (F := F) (D := D) P (dump_repo X).
Proof.
  intros Hc w. exists [RegistryDump X].
  split; [reflexivity | repeat constructor; exact Hc].
Qed.

Lemma only_quiet {A} (P : call -> Prop) (m : Cmd A) :
  (forall w, calls (snd (m w)) = calls w) -> calls_only P m.
Proof.
  intros Hm w. exists []. rewrite Hm.
  split; [symmetry; apply app_nil_r | constructor].
Qed.

Lemma only_getitem (P : call -> Prop) (d : Entry) (key : string) :
  calls_only (F := F) (D := D) P (getitem d key).
Proof.
  apply only_quiet. intros w. unfold getitem. destruct (d !! key); reflexivity.
Qed.

Lemma only_loads (P : call -> Prop) (s : string) :
  calls_only (F := F) (D := D) P (loads s).
Proof.
  apply only_quiet. intros w. unfold loads. destruct (json_loads s); reflexivity.
Qed.

Lemma only_template_render (P : call -> Prop) (t : string) (schema : Schema) :
  calls_only (F := F) (D := D) P (template_render t schema).
Proof.
  apply only_quiet. intros w. unfold template_render.
  destruct (render t schema); reflexivity.
Qed.

Lemma only_progress (P : call -> Prop) (lines : list PullLine) :
  calls_only (F := F) (D := D) P (for_each bar_update lines).
Proof.
  apply only_quiet. intros w. rewrite for_each_bar_update_world. reflexivity.
Qed.

Lemma only_get_repo (P : call -> Prop) (b : bool) :
  calls_only (F := F) (D := D) P (get_repo b).
Proof.
  apply only_quiet. intros w. unfold get_repo.
  destruct (repo_file w); [reflexivity|]. destruct b; reflexivity.
Qed.

(** A name that does not reach the registry file: none of the paths the
    commands change for it resolves to [REPO_PATH]. *)
Lemma spares_mutated (name p : string) :
  reaches_registry name = false -> In p (mutated_paths name) ->
  String.eqb (resolve_path p) (resolve_path REPO_PATH) = false.
Proof.
  unfold reaches_registry. intros Hreach Hin.
  destruct (String.eqb (resolve_path p) (resolve_path REPO_PATH)) eqn:Hp;
    [|reflexivity].
  rewrite <- Hreach. symmetry. apply existsb_exists. exists p.
  split; [exact Hin | exact Hp].
Qed.

Ltac in_mutated_paths :=
  unfold mutated_paths; cbv zeta; cbn [In];
  repeat first [left; reflexivity | right].

Ltac spares Hreach :=
  unfold generate_cli, remove_cli, remove_if_isfile, api_pull, containers_run,
    containers_get_remove, images_remove, os_makedirs, os_remove, os_rmdir,
    os_chmod, open_write;
  cbv zeta;
  repeat first
    [ apply only_get_repo | apply only_progress | apply only_getitem
    | apply only_loads | apply only_template_render | apply only_abort
    | apply only_echo | apply only_ret
    | apply only_docker_call; reflexivity
    | apply only_open_read; reflexivity
    | apply only_isfile; intros ?; reflexivity
    | apply only_dump; reflexivity
    | apply only_fs_call;
      refine (spares_mutated _ _ Hreach _); in_mutated_paths
    | apply only_try
    | match goal with
      | |- calls_only _ (if ?b then _ else _) => destruct b
      end
    | apply only_bind; [|intros ?] ].


Lemma remove_cli_spares_registry (name : string) :
  reaches_registry name = false ->
  calls_only (F := F) (D := D) spares_registry (remove_cli name).
Proof. intros Hreach. spares Hreach. Qed.



(** ** The registry store and [addrepo] *)

Lemma new_metadata_keys (repo : string) :
  new_metadata repo !! "repo" = Some repo /\
  new_metadata repo !! "description" = Some repo /\
  new_metadata repo !! "status" = None /\
  dom (new_metadata repo) = ({["repo"; "description"]} : gset string).
Proof.
  unfold new_metadata. split; [|split; [|split]].
  - rewrite lookup_insert_ne by discriminate. apply lookup_insert_eq.
  - apply lookup_insert_eq.
  - rewrite !lookup_insert_ne by discriminate. apply lookup_empty.
  - rewrite !dom_insert_L, dom_empty_L. set_solver.
Qed.

(** [addrepo] in one equation: it aborts exactly when the repository
    reference is a key of the registry, and otherwise binds [name] to
    fresh metadata, prints and saves. *)
Lemma addrepo_eq (name repo : string) w :
  addrepo name repo w =
  if contains (registry_of w) repo
  then (Raise Abort, print (Text MSG_REPO_EXISTS) w)
  else
    let repo_dict := <[name := new_metadata repo]> (registry_of w) in
    (Ok tt,
     mkWorld (Some repo_dict) (fs w) (docker w)
       (stdout w ++ [Text "Repos"; DictRepr repo_dict])
       (calls w ++ [RegistryDump repo_dict])).
Proof.
  unfold addrepo, registry_of, bind, get_repo.
  destruct (repo_file w) as [reg|]; simpl.
  - destruct (contains reg repo); [reflexivity|].
    unfold echo, echo_dict, dump_repo, print, record, with_repo_file. simpl.
    rewrite <- app_assoc. reflexivity.
  - change (contains ∅ repo) with false.
    unfold echo, echo_dict, dump_repo, print, record, with_repo_file. simpl.
    rewrite <- app_assoc. reflexivity.
Qed.

(** C6. The registry store's load: a missing file reads as the empty
    mapping when [abort_on_empty] is false and aborts with the
    empty-registry message when it is true; an existing file is returned
    as parsed whatever the flag.  The world is not changed by a load that
    returns. *)
Theorem get_repo_load (abort_on_empty : bool) w :
  (repo_file w = None -> abort_on_empty = false ->
   get_repo abort_on_empty w = (Ok ∅, w)) /\
  (repo_file w = None -> abort_on_empty = true ->
   get_repo abort_on_empty w = (Raise Abort, print (Text MSG_EMPTY) w)) /\
  (forall repo, repo_file w = Some repo ->
   get_repo abort_on_empty w = (Ok repo, w)).
Proof.
  unfold get_repo. split; [|split].
  - intros -> ->. reflexivity.
  - intros -> ->. reflexivity.
  - intros repo ->. reflexivity.
Qed.

(** C7. When [addrepo name repo] returns, the saved registry maps [name]
    to a row whose keys are exactly [repo] and [description], both bound
    to the reference, with no [status]; the file system and the daemon
    are as before and the only call made is the write of the registry: the
    reference is not looked up anywhere. *)
Theorem addrepo_inserts (name repo : string) w w' :
  addrepo name repo w = (Ok tt, w') ->
  exists (repo_dict : Registry) (entry : Entry),
    repo_file w' = Some repo_dict /\
    repo_dict !! name = Some entry /\
    entry !! "repo" = Some repo /\
    entry !! "description" = Some repo /\
    entry !! "status" = None /\
    dom entry = ({["repo"; "description"]} : gset string) /\
    fs w' = fs w /\ docker w' = docker w /\
    calls w' = calls w ++ [RegistryDump repo_dict].
Proof.
  rewrite addrepo_eq. destruct (contains (registry_of w) repo); [discriminate|].
  cbv zeta. intros Hrun. inversion Hrun; subst; clear Hrun. simpl.
  destruct (new_metadata_keys repo) as (Hrepo & Hdesc & Hstatus & Hdom).
  exists (<[name := new_metadata repo]> (registry_of w)), (new_metadata repo).
  split; [reflexivity|]. split; [apply lookup_insert_eq|].
  auto 10.
Qed.

(** C10. [addrepo] on a name the registry already holds, with a
    reference the duplicate check lets through ([repo in repo_dict] is
    false), returns: the row of [name] is replaced by fresh metadata (keys
    [repo] and [description] only, so a previous status is gone), the other
    rows are kept, and nothing but the registry itself is echoed. *)
Theorem addrepo_overwrites (name repo : string) (reg : Registry)
    (old : Entry) w :
  repo_file w = Some reg -> reg !! name = Some old ->
  contains reg repo = false ->
  exists w' (entry : Entry),
    addrepo name repo w = (Ok tt, w') /\
    repo_file w' = Some (<[name := entry]> reg) /\
    entry !! "repo" = Some repo /\
    entry !! "description" = Some repo /\
    entry !! "status" = None /\
    dom entry = ({["repo"; "description"]} : gset string) /\
    stdout w' = stdout w ++ [Text "Repos"; DictRepr (<[name := entry]> reg)].
Proof.
  intros Hfile Hold Hfresh.
  destruct (new_metadata_keys repo) as (Hrepo & Hdesc & Hstatus & Hdom).
  eexists _, (new_metadata repo). split.
  - rewrite addrepo_eq. unfold registry_of. rewrite Hfile. simpl.
    rewrite Hfresh. reflexivity.
  - simpl. auto 10.
Qed.

(** ** [install] and [remove] *)


(** C5. After an [install] that returned, a second [install] of the same
    name aborts with the already-installed message and changes nothing
    but the console: the registry file, the file system, the daemon and
    the list of calls are those the first run left. *)
Theorem install_twice (name : string) w w1 :
  install name w = (Ok tt, w1) ->
  install name w1 =
  (Raise Abort, print (Text (msg_already_installed name)) w1).
Proof.
  intros Hrun. pose proof (install_outcome name w) as Hout.
  rewrite Hrun in Hout.
  destruct Hout as (repo & entry & _ & _ & _ & Hsaved & _).
  unfold install.
  rewrite (bind_step _ _ w1 _ w1 (get_repo_some true _ w1 Hsaved)).
  rewrite lookup_insert_eq.
  unfold status_is_installed. rewrite lookup_insert_eq.
  rewrite bool_decide_eq_true_2 by reflexivity.
  apply abort_eq.
Qed.






(** C8, as the code has it.  Every run of the teardown step calls an
    initial part of [teardown_calls], all of it when the step completes:
    the CLI program, its compiled sibling if the existence check found it,
    the package marker, its compiled sibling under the same check, the
    entry point, then the install directory, and last the completion
    script.  A completed [remove] starts with exactly these calls. *)
Theorem teardown_order (name : string) w :
  (exists pyc1 pyc2 l,
     calls (snd (remove_cli name w)) = calls w ++ l /\
     l `prefix_of` teardown_calls name pyc1 pyc2 /\
     (fst (remove_cli name w) = Ok tt -> l = teardown_calls name pyc1 pyc2)) /\
  (forall w', remove name w = (Ok tt, w') ->
     exists pyc1 pyc2 rest,
       calls w' = calls w ++ teardown_calls name pyc1 pyc2 ++ rest) /\
  (forall pyc1 pyc2,
     teardown_calls name pyc1 pyc2 =
     removelast (removelast (teardown_calls name pyc1 pyc2)) ++
     [OsRmdir (INSTALL_PATH ++ "/" ++ name)%string;
      OsRemove ("/etc/bash_completion.d/" ++ name)%string]).
Proof.
  split; [|split].
  - destruct (remove_cli_trace name w)
      as (pyc1 & pyc2 & l & Hcalls & Hpre & Hall).
    exists pyc1, pyc2, l.
    split; [exact Hcalls|]. split; [exact Hpre | apply Hall].
  - intros w' Hrun.
    destruct (remove_trace name w tt w' Hrun)
      as (repo & entry & image & pyc1 & pyc2 & _ & _ & _ & Hcalls).
    exists pyc1, pyc2. eexists. rewrite Hcalls. unfold remove_calls.
    reflexivity.
  - intros pyc1 pyc2. unfold teardown_calls.
    destruct pyc1, pyc2; reflexivity.
Qed.

Lemma for_each_bar_update_returns (lines : list PullLine) w :
  fst (for_each bar_update lines w) = Ok tt ->
  for_each bar_update lines w = (Ok tt, w).
Proof.
  intros Hok. pose proof (for_each_bar_update_world lines w) as Hw.
  destruct (for_each bar_update lines w) as [r w1]. simpl in *.
  subst. reflexivity.
Qed.

(** C3, as the code has it.  When the registry holds [name] not yet
    installed, the pull completes, the schema run returns an output and
    that output is not a JSON document, [install] ends with the uncaught
    [ValueError] of [json.loads], not with the schema abort: nothing is
    echoed, the registry file and the file system are as before, and the
    only calls made are the pull and the schema run. *)
Theorem install_malformed_schema (name : string) w (repo : Registry)
    (entry : Entry) (image output : string) (lines : list PullLine)
    (d1 d2 : D) :
  repo_file w = Some repo ->
  repo !! name = Some entry ->
  status_is_installed entry = false ->
  entry !! "repo" = Some image ->
  pull image "latest" (docker w) = (Some lines, d1) ->
  (forall w0 : @World F D, fst (for_each bar_update lines w0) = Ok tt) ->
  run image (Some " /schema.json") cat_opts d1 = (Some output, d2) ->
  json_loads (Schema := Schema) output = None ->
  install name w =
  (Raise ValueError,
   mkWorld (repo_file w) (fs w) d2 (stdout w)
     (calls w ++ [DockerPull image "latest";
                  DockerRun image (Some " /schema.json") cat_opts])).
Proof.
  intros Hfile Hname Hstatus Himage Hpull Hlines Hrun Hjson.
  assert (Hget : forall w0 : @World F D,
             getitem entry "repo" w0 = (Ok image, w0)).
  { intros w0. unfold getitem. rewrite Himage. reflexivity. }
  set (w1 := with_docker d1 (record (DockerPull image "latest") w)).
  set (w2 := with_docker d2
               (record (DockerRun image (Some " /schema.json") cat_opts) w1)).
  unfold install.
  rewrite (bind_step _ _ w repo w (get_repo_some true repo w Hfile)).
  rewrite Hname, Hstatus.
  rewrite (bind_step _ _ w tt w1).
  2:{ apply try_ok. rewrite (bind_step _ _ w image w (Hget w)).
      rewrite (bind_step _ _ w lines w1).
      - apply for_each_bar_update_returns, Hlines.
      - unfold api_pull, docker_call. simpl. rewrite Hpull. reflexivity. }
  rewrite (bind_step _ _ w1 output w2).
  2:{ apply try_ok. rewrite (bind_step _ _ w1 image w1 (Hget w1)).
      change (" " +:+ SCHEMA_PATH) with " /schema.json".
      unfold containers_run, docker_call. simpl. rewrite Hrun. reflexivity. }
  rewrite (bind_stop _ _ w2 ValueError w2).
  - unfold w2, w1, with_docker, record. simpl. rewrite <- app_assoc.
    reflexivity.
  - unfold loads. rewrite Hjson. reflexivity.
Qed.

(** What the code does where C1 and C2 expect an abort. *)

(** The duplicate check of [addrepo] looks the reference up among the
    service names. *)
Lemma addrepo_aborts_iff (name repo : string) w :
  fst (addrepo name repo w) = Raise Abort <->
  is_Some (registry_of w !! repo).
Proof.
  rewrite addrepo_eq. unfold contains. case_bool_decide; simpl.
  - tauto.
  - split; [discriminate | contradiction].
Qed.

(** [remove] on a row whose status is present and is not [Installed]
    aborts before any call. *)
Lemma remove_not_installed (name status : string) (repo : Registry)
    (entry : Entry) w :
  repo_file w = Some repo -> repo !! name = Some entry ->
  entry !! "status" = Some status -> status <> STATUS_INSTALLED ->
  remove name w = (Raise Abort, print (Text (msg_not_installed name)) w).
Proof.
  intros Hfile Hname Hstatus Hother. unfold remove.
  rewrite (bind_step _ _ w repo w (get_repo_some true repo w Hfile)).
  rewrite Hname. unfold status_is_other. rewrite Hstatus.
  rewrite bool_decide_eq_false_2 by exact Hother. apply abort_eq.
Qed.

End Properties.

(** * The properties on the concrete host *)

Local Open Scope list_scope.

(** A run whose result is known: the world it leaves is its second
    component. *)
Ltac returns :=
  lazymatch goal with
  | |- ?x = (?r, _) => refine (run_pair x r _); reflexivity
  end.

(** C6 on the fresh host and on the host with one repository added. *)
Lemma get_repo_load_witness :
  get_repo false Mock.world0 = (Ok ∅, Mock.world0) /\
  get_repo true Mock.world0 =
    (Raise Abort, print (Text MSG_EMPTY) Mock.world0) /\
  get_repo true Mock.world_added =
    (Ok (registry_of Mock.world_added), Mock.world_added) /\
  get_repo false Mock.world_added =
    (Ok (registry_of Mock.world_added), Mock.world_added).
Proof.
  split; [|split; [|split]].
  - apply (proj1 (get_repo_load false Mock.world0)); reflexivity.
  - apply (proj1 (proj2 (get_repo_load true Mock.world0))); reflexivity.
  - apply (proj2 (proj2 (get_repo_load true Mock.world_added))). reflexivity.
  - apply (proj2 (proj2 (get_repo_load false Mock.world_added))). reflexivity.
Defined.

(** C7 on the fresh host: scenario 2 of the specification. *)
Lemma addrepo_inserts_witness :
  addrepo "acl" "example.com/acl-svc" Mock.world0 = (Ok tt, Mock.world_added) /\
  exists (repo_dict : Registry) (entry : Entry),
    repo_file Mock.world_added = Some repo_dict /\
    repo_dict !! "acl" = Some entry /\
    entry !! "repo" = Some "example.com/acl-svc" /\
    entry !! "description" = Some "example.com/acl-svc" /\
    entry !! "status" = None /\
    dom entry = ({["repo"; "description"]} : gset string) /\
    fs Mock.world_added = fs Mock.world0 /\
    docker Mock.world_added = docker Mock.world0 /\
    calls Mock.world_added = calls Mock.world0 ++ [RegistryDump repo_dict].
Proof.
  split.
  - returns.
  - apply (addrepo_inserts "acl" "example.com/acl-svc" Mock.world0). returns.
Defined.

Import Mock.

(** C10 on the host where [acl] is installed: the row, status included,
    is replaced. *)
Lemma addrepo_overwrites_witness :
  registry_of world_installed !! "acl" =
    Some (<["status" := STATUS_INSTALLED]> (new_metadata "example.com/acl-svc")) /\
  exists w' (entry : Entry),
    addrepo "acl" "example.com/acl-v2" world_installed = (Ok tt, w') /\
    repo_file w' = Some (<["acl" := entry]> (registry_of world_installed)) /\
    entry !! "repo" = Some "example.com/acl-v2" /\
    entry !! "description" = Some "example.com/acl-v2" /\
    entry !! "status" = None /\
    dom entry = ({["repo"; "description"]} : gset string) /\
    stdout w' =
      stdout world_installed ++
      [Text "Repos";
       DictRepr (<["acl" := entry]> (registry_of world_installed))].
Proof.
  split.
  - reflexivity.
  - apply (addrepo_overwrites "acl" "example.com/acl-v2"
             (registry_of world_installed)
             (<["status" := STATUS_INSTALLED]>
                (new_metadata "example.com/acl-svc"))
             world_installed); reflexivity.
Defined.

(** C5 on the host with [acl] added: scenario 3, then a second install. *)
Lemma install_twice_witness :
  install "acl" world_added = (Ok tt, world_installed) /\
  install "acl" world_installed =
    (Raise Abort, print (Text (msg_already_installed "acl")) world_installed).
Proof.
  split.
  - returns.
  - apply (install_twice "acl" world_added world_installed). returns.
Defined.



(** C8 on the installed host: scenario 5 starts with the teardown calls. *)
Lemma teardown_order_witness :
  remove "acl" world_installed = (Ok tt, snd (remove "acl" world_installed)) /\
  exists pyc1 pyc2 rest,
    calls (snd (remove "acl" world_installed)) =
    calls world_installed ++ teardown_calls "acl" pyc1 pyc2 ++ rest.
Proof.
  split.
  - returns.
  - apply (proj1 (proj2 (teardown_order "acl" world_installed))). returns.
Defined.

(** C8 as the specification words it fails on the installed host: the
    teardown completes and its last call is the removal of the completion
    script, the install directory having been removed before it. *)
Lemma rmdir_is_last_counterexample :
  fst (remove_cli "acl" world_installed) = Ok tt /\
  last (calls (snd (remove_cli "acl" world_installed))) =
    Some (OsRemove "/etc/bash_completion.d/acl") /\
  ~ rmdir_is_last "acl" world_installed.
Proof.
  assert (Hlast : last (calls (snd (remove_cli "acl" world_installed))) =
                  Some (OsRemove "/etc/bash_completion.d/acl")) by reflexivity.
  split; [reflexivity|]. split; [exact Hlast|].
  unfold rmdir_is_last. rewrite Hlast. discriminate.
Qed.

(** C3 on the host whose service image prints a page that is not JSON. *)
Lemma install_malformed_schema_witness :
  json_loads (Schema := string) "<html>" = None /\
  install "web" world_web =
  (Raise ValueError,
   mkWorld (repo_file world_web) (fs world_web) docker_pulled_web
     (stdout world_web)
     (calls world_web ++
      [DockerPull "example.com/web" "latest";
       DockerRun "example.com/web" (Some " /schema.json") cat_opts])).
Proof.
  split; [reflexivity|].
  apply (install_malformed_schema "web" world_web
           (registry_of world_web) (new_metadata "example.com/web")
           "example.com/web" "<html>" pull_stream
           docker_pulled_web docker_pulled_web);
    reflexivity.
Defined.

(** C3 as the specification words it fails there: the schema run
    returns, its output does not parse, and [install] ends with
    [ValueError], not with the schema abort.  The registry and the file
    system are as before, as the claim says. *)
Lemma schema_abort_counterexample :
  run "example.com/web" (Some " /schema.json") cat_opts docker_pulled_web =
    (Some "<html>", docker_pulled_web) /\
  json_loads (Schema := string) "<html>" = None /\
  fst (install "web" world_web) = Raise ValueError /\
  ~ aborted_with MSG_NO_SCHEMA (install "web" world_web) /\
  repo_file (snd (install "web" world_web)) = repo_file world_web /\
  fs (snd (install "web" world_web)) = fs world_web.
Proof.
  assert (Hend : fst (install "web" world_web) = Raise ValueError) by reflexivity.
  split; [reflexivity|]. split; [reflexivity|]. split; [exact Hend|].
  split; [|split; reflexivity].
  unfold aborted_with. rewrite Hend. intros [Habort _]. discriminate Habort.
Qed.

Import Host.



(** C1 on the fresh host: the same reference added under a second name,
    and under the same name again.  Each second [addrepo] returns, and
    with the second name the registry holds two rows with that reference:
    the reference is not a service name, so the duplicate check does not
    see it.  What the check does see is a reference that spells a service
    name, as in the last line. *)
Theorem addrepo_same_reference_twice :
  fst (addrepo "acl" "example.com/acl-svc" world0) = Ok tt /\
  fst (addrepo "acl2" "example.com/acl-svc" world_added) = Ok tt /\
  registry_of (snd (addrepo "acl2" "example.com/acl-svc" world_added)) =
    <["acl2" := new_metadata "example.com/acl-svc"]>
      (<["acl" := new_metadata "example.com/acl-svc"]> ∅) /\
  fst (addrepo "acl" "example.com/acl-svc" world_added) = Ok tt /\
  aborted_with MSG_REPO_EXISTS (addrepo "example.com/acl-svc" "acl" world_added).
Proof.
  split; [reflexivity|]. split; [reflexivity|]. split; [reflexivity|].
  split; [reflexivity|]. split; reflexivity.
Qed.

(** C2 on the host where an install stopped at the container start: the
    row of [acl] has no status, and [remove acl] does not abort.  It
    deletes the artifacts, removes the container of that name and the
    image, and writes the registry. *)
Theorem remove_without_status_runs :
  (exists entry : Entry,
     registry_of world_half_installed !! "acl" = Some entry /\
     entry !! "status" = None) /\
  fst (remove "acl" world_half_installed) = Ok tt /\
  calls (snd (remove "acl" world_half_installed)) =
    calls world_half_installed ++
    remove_calls "acl" "example.com/acl-svc" false false
      (registry_of (snd (remove "acl" world_half_installed))) /\
  isfile "/usr/bin/acl" (fs world_half_installed) = true /\
  isfile "/usr/bin/acl" (fs (snd (remove "acl" world_half_installed))) = false /\
  container_get "acl" (docker world_half_installed) = true /\
  container_get "acl" (docker (snd (remove "acl" world_half_installed))) = false /\
  registry_of (snd (remove "acl" world_half_installed)) !! "acl" =
    Some (<["status" := STATUS_NOT_INSTALLED]>
            (new_metadata "example.com/acl-svc")).
Proof.
  split.
  - exists (new_metadata "example.com/acl-svc"). split; reflexivity.
  - repeat (split; [reflexivity|]). reflexivity.
Qed.

(** * Further properties of the commands *)

Section Table.
Context {F D : Type}.
Variable tabulate : list (list string) -> list string -> string.

Implicit Types w : @World F D.
Local Open Scope list_scope.

Lemma getitem_some (d : Entry) (key v : string) w :
  d !! key = Some v -> getitem d key w = (Ok v, w).
Proof. intros Hkey. unfold getitem. rewrite Hkey. reflexivity. Qed.

Lemma getitem_none (d : Entry) (key : string) w :
  d !! key = None -> getitem d key w = (Raise (KeyError key), w).
Proof. intros Hkey. unfold getitem. rewrite Hkey. reflexivity. Qed.

(** One row of the table. *)
Lemma repo_line_printable (name : string) (row : Entry) w :
  printable row -> repo_line (name, row) w = (Ok (line_of name row), w).
Proof.
  intros [[r Hr] [d Hd]]. unfold repo_line, line_of. simpl.
  rewrite (bind_step _ _ w r w (getitem_some row "repo" r w Hr)).
  rewrite (bind_step _ _ w d w (getitem_some row "description" d w Hd)).
  rewrite Hr, Hd. destruct (row !! "status"); reflexivity.
Qed.

Lemma repo_line_missing (name : string) (row : Entry) w :
  ~ printable row ->
  exists key,
    repo_line (name, row) w = (Raise (KeyError key), w) /\
    (key = "repo" \/ key = "description").
Proof.
  intros Hbad. unfold repo_line. simpl.
  destruct (row !! "repo") as [r|] eqn:Hr.
  - rewrite (bind_step _ _ w r w (getitem_some row "repo" r w Hr)).
    destruct (row !! "description") as [d|] eqn:Hd.
    + exfalso. apply Hbad. unfold printable. rewrite Hr, Hd. eauto.
    + exists "description". split; [|right; reflexivity].
      apply bind_stop, getitem_none, Hd.
  - exists "repo". split; [|left; reflexivity].
    apply bind_stop, getitem_none, Hr.
Qed.

(** The loop over the rows: all lines, or the [KeyError] of the first
    row that cannot be printed; the world is not touched. *)
Lemma collect_printable (l : list (string * Entry)) w :
  Forall (fun item => printable (snd item)) l ->
  collect repo_line l w = (Ok (map (fun item => line_of (fst item) (snd item)) l), w).
Proof.
  induction 1 as [|[name row] l Hrow _ IH]; simpl; [reflexivity|].
  rewrite (bind_step _ _ w _ w (repo_line_printable name row w Hrow)).
  rewrite (bind_step _ _ w _ w IH). reflexivity.
Qed.

Lemma collect_missing (l : list (string * Entry)) w :
  Exists (fun item => ~ printable (snd item)) l ->
  exists key,
    collect repo_line l w = (Raise (KeyError key), w) /\
    (key = "repo" \/ key = "description").
Proof.
  induction l as [|[name row] l IH]; intros Hbad; [inversion Hbad|].
  simpl.
  destruct (decide (printable row)) as [Hrow | Hrow].
  - rewrite (bind_step _ _ w _ w (repo_line_printable name row w Hrow)).
    destruct IH as (key & Hrun & Hkey).
    { inversion Hbad; subst; [contradiction | assumption]. }
    exists key. split; [|exact Hkey]. apply bind_stop, Hrun.
  - destruct (repo_line_missing name row w Hrow) as (key & Hrun & Hkey).
    exists key. split; [|exact Hkey]. apply bind_stop, Hrun.
Qed.

Lemma map_Forall_items (repo : Registry) :
  map_Forall (fun _ row => printable row) repo <->
  Forall (fun item => printable (snd item)) (map_to_list repo).
Proof.
  rewrite map_Forall_to_list. apply Forall_iff. intros [name row]. reflexivity.
Qed.

(** [show] on a registry whose rows can all be printed. *)
Lemma show_lines (repo : Registry) w :
  repo_file w = Some repo ->
  map_Forall (fun _ row => printable row) repo ->
  show tabulate w =
  (Ok tt,
   print (Text (tabulate
                  (map (fun item => line_of (fst item) (snd item))
                     (map_to_list repo))
                  REPO_HEADER)) w).
Proof.
  intros Hfile Hrows. unfold show.
  rewrite (bind_step _ _ w repo w (get_repo_some true repo w Hfile)).
  apply map_Forall_items in Hrows.
  rewrite (bind_step _ _ w _ w (collect_printable _ w Hrows)).
  reflexivity.
Qed.

Lemma show_missing (repo : Registry) w :
  repo_file w = Some repo ->
  ~ map_Forall (fun _ row => printable row) repo ->
  exists key,
    show tabulate w = (Raise (KeyError key), w) /\
    (key = "repo" \/ key = "description").
Proof.
  intros Hfile Hrows. unfold show.
  rewrite (bind_step _ _ w repo w (get_repo_some true repo w Hfile)).
  rewrite map_Forall_items in Hrows.
  apply (not_Forall_Exists _) in Hrows.
  destruct (collect_missing (map_to_list repo) w) as (key & Hrun & Hkey).
  { eapply Exists_impl; [exact Hrows|]. intros item Hitem. exact Hitem. }
  exists key. split; [|exact Hkey]. apply bind_stop, Hrun.
Qed.

Lemma elem_of_lines (repo : Registry) (line : list string) :
  line ∈ map (fun item => line_of (fst item) (snd item)) (map_to_list repo) <->
  exists name row, repo !! name = Some row /\ line = line_of name row.
Proof.
  rewrite list_elem_of_In, in_map_iff. split.
  - intros ([name row] & Hline & Hin). exists name, row.
    apply list_elem_of_In, elem_of_map_to_list in Hin. auto.
  - intros (name & row & Hrow & Hline). exists (name, row).
    split; [symmetry; exact Hline|].
    apply list_elem_of_In, elem_of_map_to_list, Hrow.
Qed.

(** X1. [show] only reads: whatever its outcome, the registry file, the
    file system, the daemon and the list of calls are as before; with no
    registry file it aborts with the empty-registry message.  When it
    returns it has echoed one table, and run again at once it returns
    and echoes the same table. *)
Theorem show_reads_only w :
  repo_file (snd (show tabulate w)) = repo_file w /\
  fs (snd (show tabulate w)) = fs w /\
  docker (snd (show tabulate w)) = docker w /\
  calls (snd (show tabulate w)) = calls w /\
  (repo_file w = None ->
   show tabulate w = (Raise Abort, print (Text MSG_EMPTY) w)) /\
  (fst (show tabulate w) = Ok tt ->
   exists table,
     stdout (snd (show tabulate w)) = stdout w ++ [Text table] /\
     show tabulate (snd (show tabulate w)) =
     (Ok tt, print (Text table) (snd (show tabulate w)))).
Proof.
  destruct (repo_file w) as [repo|] eqn:Hfile.
  - destruct (decide (map_Forall (fun _ row => printable row) repo))
      as [Hrows | Hrows].
    + rewrite (show_lines repo w Hfile Hrows). simpl.
      repeat (split; [first [exact Hfile | reflexivity | discriminate]|]).
      intros _. eexists. split; [reflexivity|].
      apply show_lines; [exact Hfile | exact Hrows].
    + destruct (show_missing repo w Hfile Hrows) as (key & Hrun & _).
      rewrite Hrun. simpl.
      repeat (split; [first [exact Hfile | reflexivity | discriminate]|]).
      discriminate.
  - assert (Hrun : show tabulate w = (Raise Abort, print (Text MSG_EMPTY) w)).
    { unfold show, bind, get_repo. rewrite Hfile. reflexivity. }
    rewrite Hrun. simpl.
    repeat (split; [first [exact Hfile | reflexivity]|]).
    discriminate.
Qed.

(** X2. On a registry whose rows all have a repository and a
    description, [show] returns and echoes a table with the fixed header
    and exactly one line per service: its name, repository, description
    and status, the status reading [Not installed] when the row has
    none. *)
Theorem show_table (repo : Registry) w :
  repo_file w = Some repo ->
  map_Forall (fun _ row => printable row) repo ->
  exists lines,
    show tabulate w = (Ok tt, print (Text (tabulate lines REPO_HEADER)) w) /\
    length lines = size repo /\
    (forall line,
       line ∈ lines <->
       exists name row r d,
         repo !! name = Some row /\
         row !! "repo" = Some r /\ row !! "description" = Some d /\
         line = [name; r; d;
                 match row !! "status" with
                 | Some status => status
                 | None => "Not installed"
                 end]).
Proof.
  intros Hfile Hrows. eexists. split; [apply (show_lines repo w Hfile Hrows)|].
  split; [rewrite length_map; apply length_map_to_list|].
  intros line. rewrite elem_of_lines. split.
  - intros (name & row & Hrow & ->).
    destruct (Hrows name row Hrow) as [[r Hr] [d Hd]].
    exists name, row, r, d. unfold line_of. rewrite Hr, Hd.
    destruct (row !! "status"); auto.
  - intros (name & row & r & d & Hrow & Hr & Hd & ->).
    exists name, row. split; [exact Hrow|].
    unfold line_of. rewrite Hr, Hd. destruct (row !! "status"); reflexivity.
Qed.

(** X3. When some row of the registry lacks its repository or its
    description, [show] ends with the uncaught [KeyError] of that key and
    echoes nothing, not even the lines it could have printed. *)
Theorem show_missing_key (repo : Registry) (name : string) (row : Entry) w :
  repo_file w = Some repo ->
  repo !! name = Some row ->
  row !! "repo" = None \/ row !! "description" = None ->
  exists key,
    show tabulate w = (Raise (KeyError key), w) /\
    (key = "repo" \/ key = "description").
Proof.
  intros Hfile Hrow Hkey. apply (show_missing repo w Hfile).
  intros Hrows. destruct (Hrows name row Hrow) as [[r Hr] [d Hd]].
  destruct Hkey as [Hkey | Hkey]; congruence.
Qed.

End Table.

Section Stages.
Context {F D Schema : Type}.
Context `{!FileSystem F} `{!DockerClient D} `{!Templating Schema}.

Implicit Types w : @World F D.
Local Open Scope list_scope.

(** ** Single steps, forwards *)

Lemma docker_call_returns {A} (c : call) (op : D -> option A * D) w (a : A) d :
  op (docker w) = (Some a, d) ->
  docker_call (F := F) c op w = (Ok a, with_docker d (record c w)).
Proof. intros Hop. unfold docker_call. simpl. rewrite Hop. reflexivity. Qed.

Lemma docker_call_raises {A} (c : call) (op : D -> option A * D) w d :
  op (docker w) = (None, d) ->
  docker_call (F := F) c op w =
  (Raise DockerException, with_docker d (record c w)).
Proof. intros Hop. unfold docker_call. simpl. rewrite Hop. reflexivity. Qed.


(** ** The progress loop *)

Lemma bar_update_cases (line : PullLine) w :
  (bar_update line w = (Ok tt, w) /\ ~ bad_progress line) \/
  ((exists e, bar_update line w = (Raise e, w)) /\ bad_progress line).
Proof.
  unfold bar_update, bad_progress.
  destruct (progressDetail line) as [detail|] eqn:Hdetail.
  2:{ left. split; [reflexivity|]. intros (? & ? & ? & _). discriminate. }
  destruct (detail !! "current") as [current|] eqn:Hcurrent.
  2:{ left. split; [reflexivity|].
      intros (detail' & ? & Hd & Hc & _). congruence. }
  destruct (detail !! "total") as [total|] eqn:Htotal.
  - case_bool_decide as Hzero.
    + right. split; [eexists; reflexivity|]. subst total.
      exists detail, current. auto.
    + left. split; [reflexivity|].
      intros (detail' & ? & Hd & _ & [Ht | Ht]); congruence.
  - right. split; [eexists; reflexivity|]. exists detail, current. auto.
Qed.

Lemma progress_returns (lines : list PullLine) w :
  Forall (fun line => ~ bad_progress line) lines ->
  for_each bar_update lines w = (Ok tt, w).
Proof.
  induction 1 as [|line lines Hline _ IH]; simpl; [reflexivity|].
  destruct (bar_update_cases line w) as [[Hrun _] | [_ Hbad]];
    [|contradiction].
  rewrite (bind_step _ _ w tt w Hrun). exact IH.
Qed.

Lemma progress_raises (lines : list PullLine) w :
  Exists bad_progress lines ->
  exists e, for_each bar_update lines w = (Raise e, w).
Proof.
  induction lines as [|line lines IH]; intros Hbad; [inversion Hbad|].
  simpl.
  destruct (bar_update_cases line w) as [[Hrun Hgood] | [[e Hrun] _]].
  - rewrite (bind_step _ _ w tt w Hrun). apply IH.
    inversion Hbad; subst; [contradiction | assumption].
  - exists e. apply bind_stop, Hrun.
Qed.

(** ** [install], stage by stage *)

Section InstallStages.
Variables (name : string) (w : @World F D) (repo : Registry) (entry : Entry).
Hypothesis Hfile : repo_file w = Some repo.
Hypothesis Hname : repo !! name = Some entry.
Hypothesis Hstatus : status_is_installed entry = false.

Local Abbreviation package_path := (INSTALL_PATH ++ "/" ++ name)%string.

Ltac enter_install :=
  unfold install;
  rewrite (bind_step _ _ w repo w (get_repo_some true repo w Hfile));
  rewrite Hname, Hstatus.

(** X5. A row without a repository: the [KeyError] is caught by the
    handler of the pull, so [install] reports a failed pull although no
    call was made. *)
Theorem install_missing_repository :
  entry !! "repo" = None ->
  install name w = (Raise Abort, print (Text MSG_PULL_FAILED) w).
Proof.
  intros Himage. enter_install. apply bind_stop.
  rewrite (try_caught _ _ w (KeyError "repo") w); [apply abort_eq|].
  apply bind_stop, getitem_none, Himage.
Qed.

Variable image : string.
Hypothesis Himage : entry !! "repo" = Some image.

(** X6. The pull itself raising: [install] aborts with the pull message;
    nothing but the daemon can have changed and the pull is the only
    call. *)
Theorem install_pull_fails (d1 : D) :
  pull image "latest" (docker w) = (None, d1) ->
  install name w =
  (Raise Abort,
   mkWorld (repo_file w) (fs w) d1 (stdout w ++ [Text MSG_PULL_FAILED])
     (calls w ++ [DockerPull image "latest"])).
Proof.
  intros Hpull. enter_install. apply bind_stop.
  rewrite (try_caught _ _ w DockerException
             (with_docker d1 (record (DockerPull image "latest") w)));
    [reflexivity|].
  rewrite (bind_step _ _ w image w (getitem_some entry "repo" image w Himage)).
  apply bind_stop. apply docker_call_raises, Hpull.
Qed.

Variables (lines : list PullLine) (d1 : D).
Hypothesis Hpull : pull image "latest" (docker w) = (Some lines, d1).

Local Abbreviation w1 :=
  (with_docker d1 (record (DockerPull image "latest") w)).

(** X7. A pull whose stream has a progress line with [current] and
    without [total], or with [total] zero: the loop over the stream raises
    inside the [try], and [install] reports a failed pull.  The registry
    file and the file system are as before and the pull is the only call.
    The daemon is left in some state: the stream is abandoned at the line
    that raises, so it need not be the state of a completed pull. *)
Theorem install_bad_progress :
  Exists bad_progress lines ->
  exists d,
    install name w =
    (Raise Abort,
     mkWorld (repo_file w) (fs w) d (stdout w ++ [Text MSG_PULL_FAILED])
       (calls w ++ [DockerPull image "latest"])).
Proof.
  intros Hbad. exists d1. enter_install. apply bind_stop.
  destruct (progress_raises lines w1 Hbad) as [e Hloop].
  rewrite (try_caught _ _ w e w1); [reflexivity|].
  rewrite (bind_step _ _ w image w (getitem_some entry "repo" image w Himage)).
  rewrite (bind_step _ _ w lines w1 (docker_call_returns _ _ w lines d1 Hpull)).
  exact Hloop.
Qed.

Hypothesis Hlines : Forall (fun line => ~ bad_progress line) lines.

Lemma pull_stage :
  try_except
    (bind (getitem entry "repo")
       (fun image => bind (api_pull image "latest")
                       (fun lines => for_each bar_update lines)))
    (abort MSG_PULL_FAILED) w = (Ok tt, w1).
Proof.
  apply try_ok.
  rewrite (bind_step _ _ w image w (getitem_some entry "repo" image w Himage)).
  rewrite (bind_step _ _ w lines w1 (docker_call_returns _ _ w lines d1 Hpull)).
  apply progress_returns, Hlines.
Qed.

(** X8. The schema run raising after a completed pull: [install] aborts
    with the schema message.  The image stays pulled, the registry file
    and the file system are as before and no file-system call was made. *)
Theorem install_schema_run_fails (d2 : D) :
  run image (Some " /schema.json") cat_opts d1 = (None, d2) ->
  install name w =
  (Raise Abort,
   mkWorld (repo_file w) (fs w) d2 (stdout w ++ [Text MSG_NO_SCHEMA])
     (calls w ++ [DockerPull image "latest";
                  DockerRun image (Some " /schema.json") cat_opts])).
Proof.
  intros Hrun. enter_install.
  rewrite (bind_step _ _ w tt w1 pull_stage). apply bind_stop.
  rewrite (try_caught _ _ w1 DockerException
             (with_docker d2
                (record (DockerRun image (Some " /schema.json") cat_opts) w1))).
  - unfold abort, bind, echo, raise, print, with_docker, record. simpl.
    rewrite <- app_assoc. reflexivity.
  - rewrite (bind_step _ _ w1 image w1
               (getitem_some entry "repo" image w1 Himage)).
    apply docker_call_raises. exact Hrun.
Qed.

Variables (output : string) (d2 : D) (schema : Schema).
Hypothesis Hrun : run image (Some " /schema.json") cat_opts d1 = (Some output, d2).
Hypothesis Hjson : json_loads output = Some schema.

Local Abbreviation w2 :=
  (with_docker d2
     (record (DockerRun image (Some " /schema.json") cat_opts) w1)).





End InstallStages.

(** ** [remove], stage by stage *)

Section RemoveStages.
Variables (name : string) (w : @World F D) (repo : Registry) (entry : Entry).
Hypothesis Hfile : repo_file w = Some repo.
Hypothesis Hname : repo !! name = Some entry.
Hypothesis Hstatus : status_is_other entry = false.
Variable w1 : @World F D.
Hypothesis Hteardown : remove_cli name w = (Ok tt, w1).

Ltac enter_remove :=
  unfold remove;
  rewrite (bind_step _ _ w repo w (get_repo_some true repo w Hfile));
  rewrite Hname, Hstatus;
  rewrite (bind_step _ _ w tt w1 Hteardown).

Lemma teardown_keeps_registry : repo_file w1 = repo_file w.
Proof.
  pose proof (keeps_remove_cli name w) as Hkeep.
  rewrite Hteardown in Hkeep. exact Hkeep.
Qed.

(** X11. The container cannot be removed after a completed teardown,
    because there is none of that name or because its removal raises:
    [remove] aborts with the container message.  The artifacts are gone,
    the image is not touched and the registry file is as before, so the
    service still reads as installed. *)
Theorem remove_container_fails :
  (container_get name (docker w1) = false ->
   remove name w =
   (Raise Abort,
    mkWorld (repo_file w) (fs w1) (docker w1)
      (stdout w1 ++ [Text MSG_CONTAINER_REMOVE_FAILED])
      (calls w1 ++ [DockerContainerGet name]))) /\
  (forall d2,
     container_get name (docker w1) = true ->
     container_remove name true (docker w1) = (false, d2) ->
     remove name w =
     (Raise Abort,
      mkWorld (repo_file w) (fs w1) d2
        (stdout w1 ++ [Text MSG_CONTAINER_REMOVE_FAILED])
        (calls w1 ++ [DockerContainerGet name;
                      DockerContainerRemove name true]))).
Proof.
  pose proof teardown_keeps_registry as Hkeep. split.
  - intros Hget. enter_remove. apply bind_stop.
    rewrite (try_caught _ _ w1 DockerException
               (record (DockerContainerGet name) w1)).
    + unfold abort, bind, echo, raise, print, record. simpl.
      rewrite Hkeep. reflexivity.
    + apply bind_stop. unfold docker_call. simpl. rewrite Hget.
      destruct w1; reflexivity.
  - intros d2 Hget Hremove. enter_remove. apply bind_stop.
    rewrite (try_caught _ _ w1 DockerException
               (with_docker d2
                  (record (DockerContainerRemove name true)
                     (record (DockerContainerGet name) w1)))).
    + unfold abort, bind, echo, raise, print, with_docker, record. simpl.
      rewrite Hkeep, <- app_assoc. reflexivity.
    + unfold containers_get_remove.
      rewrite (bind_step _ _ w1 tt (record (DockerContainerGet name) w1)).
      * apply docker_call_raises. unfold as_option. simpl.
        rewrite Hremove. reflexivity.
      * unfold docker_call. simpl. rewrite Hget. destruct w1; reflexivity.
Qed.

Variable d2 : D.
Hypothesis Hget : container_get name (docker w1) = true.
Hypothesis Hremoved : container_remove name true (docker w1) = (true, d2).

Local Abbreviation w2 :=
  (with_docker d2
     (record (DockerContainerRemove name true)
        (record (DockerContainerGet name) w1))).

Lemma container_stage :
  try_except (containers_get_remove name true)
    (abort MSG_CONTAINER_REMOVE_FAILED) w1 = (Ok tt, w2).
Proof.
  apply try_ok. unfold containers_get_remove.
  rewrite (bind_step _ _ w1 tt (record (DockerContainerGet name) w1)).
  - apply docker_call_returns. unfold as_option. simpl.
    rewrite Hremoved. reflexivity.
  - unfold docker_call. simpl. rewrite Hget. destruct w1; reflexivity.
Qed.

(** X12. The image cannot be removed after the container is gone,
    because the row has no repository or because the removal raises:
    [remove] aborts with the image message and the registry file is as
    before, although the artifacts and the container are gone. *)
Theorem remove_image_fails :
  (entry !! "repo" = None ->
   remove name w =
   (Raise Abort,
    mkWorld (repo_file w) (fs w1) d2
      (stdout w1 ++ [Text "removing Docker image...";
                     Text MSG_IMAGE_REMOVE_FAILED])
      (calls w1 ++ [DockerContainerGet name;
                    DockerContainerRemove name true]))) /\
  (forall image d3,
     entry !! "repo" = Some image ->
     image_remove image d2 = (false, d3) ->
     remove name w =
     (Raise Abort,
      mkWorld (repo_file w) (fs w1) d3
        (stdout w1 ++ [Text "removing Docker image...";
                       Text MSG_IMAGE_REMOVE_FAILED])
        (calls w1 ++ [DockerContainerGet name;
                      DockerContainerRemove name true;
                      DockerImageRemove image]))).
Proof.
  pose proof teardown_keeps_registry as Hkeep. split.
  - intros Himage. enter_remove.
    rewrite (bind_step _ _ w1 tt w2 container_stage).
    rewrite (bind_step (echo "removing Docker image...") _ w2 tt
               (print (Text "removing Docker image...") w2) eq_refl).
    apply bind_stop.
    match goal with
    | |- try_except _ _ ?w0 = _ =>
        rewrite (try_caught _ _ w0 (KeyError "repo") w0)
    end.
    + unfold abort, bind, echo, raise, print, with_docker, record. simpl.
      rewrite Hkeep, <- !app_assoc. reflexivity.
    + apply bind_stop, getitem_none, Himage.
  - intros image d3 Himage Hrm. enter_remove.
    rewrite (bind_step _ _ w1 tt w2 container_stage).
    rewrite (bind_step (echo "removing Docker image...") _ w2 tt
               (print (Text "removing Docker image...") w2) eq_refl).
    apply bind_stop.
    match goal with
    | |- try_except _ _ ?w0 = _ =>
        rewrite (try_caught _ _ w0 DockerException
                   (with_docker d3 (record (DockerImageRemove image) w0)))
    end.
    + unfold abort, bind, echo, raise, print, with_docker, record. simpl.
      rewrite Hkeep, <- !app_assoc. reflexivity.
    + match goal with
      | |- bind _ _ ?w0 = _ =>
          rewrite (bind_step _ _ w0 image w0
                     (getitem_some entry "repo" image w0 Himage))
      end.
      apply docker_call_raises. unfold as_option. simpl.
      rewrite Hrm. reflexivity.
Qed.

End RemoveStages.

(** ** Commands in sequence *)

(** X14. [remove] after [install], both returning: the row of the
    service is its row before the install with [status] set to
    [Not installed], the key being present now even if it was absent at
    first.  A second [remove] at once aborts with the not-installed
    message and changes nothing but the console. *)
Theorem remove_after_install (name : string) w w1 w2 :
  install name w = (Ok tt, w1) ->
  remove name w1 = (Ok tt, w2) ->
  exists (repo : Registry) (entry : Entry),
    repo_file w = Some repo /\ repo !! name = Some entry /\
    repo_file w2 =
      Some (<[name := <["status" := STATUS_NOT_INSTALLED]> entry]> repo) /\
    remove name w2 =
      (Raise Abort, print (Text (msg_not_installed name)) w2).
Proof.
  intros Hinstall Hremove.
  pose proof (install_outcome name w) as Hin. rewrite Hinstall in Hin.
  destruct Hin as (repo & entry & Hfile & Hname & _ & Hsaved & _).
  pose proof (remove_outcome name w1) as Hout. rewrite Hremove in Hout.
  destruct Hout as (repo1 & entry1 & Hfile1 & Hname1 & _ & Hsaved1 & _).
  rewrite Hsaved in Hfile1. inversion Hfile1; subst repo1; clear Hfile1.
  rewrite lookup_insert_eq in Hname1. inversion Hname1; subst entry1.
  rewrite !insert_insert_eq in Hsaved1.
  exists repo, entry. split; [exact Hfile|]. split; [exact Hname|].
  split; [exact Hsaved1|].
  apply (remove_not_installed name STATUS_NOT_INSTALLED _
           (<["status" := STATUS_NOT_INSTALLED]> entry) w2 Hsaved1).
  - apply lookup_insert_eq.
  - apply lookup_insert_eq.
  - discriminate.
Qed.

(** ** More on [addrepo] *)

(** X15. [addrepo] on a host without a registry file cannot abort: it
    creates the registry with the one row, whatever the name and the
    reference. *)
Theorem addrepo_first (name repo : string) w :
  repo_file w = None ->
  exists w' (entry : Entry),
    addrepo name repo w = (Ok tt, w') /\
    repo_file w' = Some {[name := entry]} /\
    entry !! "repo" = Some repo /\ entry !! "description" = Some repo /\
    dom entry = ({["repo"; "description"]} : gset string).
Proof.
  intros Hfile.
  destruct (new_metadata_keys repo) as (Hrepo & Hdesc & _ & Hdom).
  eexists _, (new_metadata repo). split.
  - rewrite addrepo_eq. unfold registry_of. rewrite Hfile. simpl.
    change (contains ∅ repo) with false. reflexivity.
  - simpl. rewrite insert_empty. auto.
Qed.

(** X16. [addrepo] touches one row at most: every other row of the
    registry is afterwards what it was, returned or aborted, and an
    abort leaves the registry file, the file system, the daemon and the
    calls untouched. *)
Theorem addrepo_frame (name repo : string) w :
  (forall other, other <> name ->
     registry_of (snd (addrepo name repo w)) !! other =
     registry_of w !! other) /\
  (forall e, fst (addrepo name repo w) = Raise e ->
     snd (addrepo name repo w) = print (Text MSG_REPO_EXISTS) w).
Proof.
  rewrite addrepo_eq.
  destruct (contains (registry_of w) repo); simpl; split.
  - reflexivity.
  - reflexivity.
  - intros other Hother. unfold registry_of at 1. simpl.
    apply lookup_insert_ne. congruence.
  - discriminate.
Qed.

(** X17. The duplicate check across two calls: after [addrepo name repo]
    has returned, adding the same reference again, under any name, aborts
    exactly when the reference spells the first name. *)
Theorem addrepo_again (name name2 repo : string) w w1 :
  addrepo name repo w = (Ok tt, w1) ->
  (fst (addrepo name2 repo w1) = Raise Abort <-> repo = name).
Proof.
  intros Hfirst. rewrite addrepo_aborts_iff.
  rewrite addrepo_eq in Hfirst.
  destruct (contains (registry_of w) repo) eqn:Hfresh; [discriminate|].
  cbv zeta in Hfirst. inversion Hfirst; subst w1; clear Hfirst.
  unfold registry_of at 1. simpl.
  unfold contains in Hfresh. apply bool_decide_eq_false in Hfresh.
  split.
  - intros Hkey. destruct (decide (name = repo)) as [Heq | Hne]; [auto|].
    rewrite lookup_insert_ne in Hkey by exact Hne. contradiction.
  - intros ->. rewrite lookup_insert_eq. eauto.
Qed.

(** ** The generation step *)

(** X18. [generate_cli] never cleans up: at whatever call it raises,
    the calls made so far are an initial part of the generation sequence
    (directory, CLI program, package marker, entry point, its mode,
    completion script) and all of it when the step completes. *)
Theorem generate_cli_trace (name : string) (schema : Schema) w :
  exists cli entry_point completion l,
    calls (snd (generate_cli name schema w)) = calls w ++ l /\
    l `prefix_of` generate_calls name cli entry_point completion /\
    (fst (generate_cli name schema w) = Ok tt ->
     l = generate_calls name cli entry_point completion).
Proof.
  unfold generate_cli, os_makedirs, open_write, os_chmod, open_read,
    template_render, fs_call, bind, echo, ret, raise.
  cbv zeta. simpl.
  repeat match goal with
  | |- context [match makedirs ?p ?f with _ => _ end] =>
      destruct (makedirs p f) eqn:?; simpl
  | |- context [match read ?p ?f with _ => _ end] =>
      destruct (read p f) eqn:?; simpl
  | |- context [match render ?t ?s with _ => _ end] =>
      destruct (render t s) eqn:?; simpl
  | |- context [match write ?p ?c ?f with _ => _ end] =>
      destruct (write p c f) eqn:?; simpl
  | |- context [match chmod ?p ?m ?f with _ => _ end] =>
      destruct (chmod p m f) eqn:?; simpl
  end;
  rewrite <- ?app_assoc;
  eexists _, _, _; eexists; (split; [reflexivity|]);
  (split;
   [ eexists; unfold generate_calls; simpl; reflexivity
   | intros Hok; first [discriminate Hok | reflexivity] ]).
  Unshelve. all: exact EmptyString.
Qed.

(** ** Services the registry does not know *)

(** X4. [install] and [remove] look the service up before anything
    else: without a registry file they abort with the empty-registry
    message, and for a name the registry does not hold with the not-found
    message; in both cases nothing is called and only the console
    changes. *)
Theorem unknown_service (name : string) w :
  (repo_file w = None ->
   install name w = (Raise Abort, print (Text MSG_EMPTY) w) /\
   remove name w = (Raise Abort, print (Text MSG_EMPTY) w)) /\
  (forall repo : Registry,
     repo_file w = Some repo -> repo !! name = None ->
     install name w = (Raise Abort, print (Text (msg_not_found name)) w) /\
     remove name w = (Raise Abort, print (Text (msg_not_found name)) w)).
Proof.
  split.
  - intros Hfile. unfold install, remove, bind, get_repo. rewrite Hfile.
    split; reflexivity.
  - intros repo Hfile Hname. unfold install, remove.
    rewrite !(bind_step _ _ w repo w (get_repo_some true repo w Hfile)).
    rewrite Hname. split; reflexivity.
Qed.

End Stages.

Section Listing.
Context {F D Schema : Type}.
Context `{!FileSystem F} `{!DockerClient D} `{!Templating Schema}.
Variable tabulate : list (list string) -> list string -> string.

Implicit Types w : @World F D.
Local Open Scope list_scope.

Lemma printable_status (status : string) (row : Entry) :
  printable row -> printable (<["status" := status]> row).
Proof.
  unfold printable. rewrite !lookup_insert_ne by discriminate. tauto.
Qed.

Lemma printable_new_metadata (repo : string) : printable (new_metadata repo).
Proof.
  destruct (new_metadata_keys repo) as (Hrepo & Hdesc & _).
  unfold printable. rewrite Hrepo, Hdesc. eauto.
Qed.

(** The table after a row has been written. *)
Lemma show_row (name : string) (row : Entry) (repo : Registry) w :
  repo_file w = Some (<[name := row]> repo) ->
  map_Forall (fun _ row => printable row) repo ->
  printable row ->
  exists lines,
    show tabulate w = (Ok tt, print (Text (tabulate lines REPO_HEADER)) w) /\
    line_of name row ∈ lines.
Proof.
  intros Hfile Hrows Hrow. eexists. split.
  - apply (show_lines tabulate _ w Hfile).
    apply map_Forall_insert_2; assumption.
  - apply elem_of_lines. exists name, row.
    split; [apply lookup_insert_eq | reflexivity].
Qed.

(** X19. [show] follows the commands.  On a registry whose rows can all
    be printed: after a returning [addrepo] the table has the line of the
    new service with its reference as repository and as description and
    status [Not installed]; after a returning [install] the line of the
    service reads [Installed]; after a returning [remove] it reads
    [Not installed]. *)
Theorem show_follows_status (name ref : string) w w1 :
  map_Forall (fun _ row => printable row) (registry_of w) ->
  (addrepo name ref w = (Ok tt, w1) ->
   exists lines,
     show tabulate w1 = (Ok tt, print (Text (tabulate lines REPO_HEADER)) w1) /\
     [name; ref; ref; "Not installed"] ∈ lines) /\
  (install name w = (Ok tt, w1) ->
   exists lines r d,
     show tabulate w1 = (Ok tt, print (Text (tabulate lines REPO_HEADER)) w1) /\
     [name; r; d; "Installed"] ∈ lines) /\
  (remove name w = (Ok tt, w1) ->
   exists lines r d,
     show tabulate w1 = (Ok tt, print (Text (tabulate lines REPO_HEADER)) w1) /\
     [name; r; d; "Not installed"] ∈ lines).
Proof.
  intros Hrows. split; [|split].
  - intros Hrun. rewrite addrepo_eq in Hrun.
    destruct (contains (registry_of w) ref); [discriminate|].
    cbv zeta in Hrun. inversion Hrun; subst w1; clear Hrun.
    destruct (show_row name (new_metadata ref) (registry_of w)
                (mkWorld (Some (<[name := new_metadata ref]> (registry_of w)))
                   (fs w) (docker w)
                   (stdout w ++
                    [Text "Repos";
                     DictRepr (<[name := new_metadata ref]> (registry_of w))])
                   (calls w ++
                    [RegistryDump (<[name := new_metadata ref]> (registry_of w))]))
                eq_refl Hrows (printable_new_metadata ref))
      as (lines & Hshow & Hline).
    exists lines. split; [exact Hshow|].
    destruct (new_metadata_keys ref) as (Hrepo & Hdesc & Hstatus & _).
    unfold line_of in Hline. rewrite Hrepo, Hdesc, Hstatus in Hline.
    exact Hline.
  - intros Hrun. pose proof (install_outcome name w) as Hout.
    rewrite Hrun in Hout.
    destruct Hout as (repo & entry & Hfile & Hname & _ & Hsaved & _).
    unfold registry_of in Hrows. rewrite Hfile in Hrows. simpl in Hrows.
    destruct (Hrows name entry Hname) as [[r Hr] [d Hd]].
    destruct (show_row name (<["status" := STATUS_INSTALLED]> entry) repo w1
                Hsaved Hrows (printable_status _ entry (Hrows name entry Hname)))
      as (lines & Hshow & Hline).
    exists lines, r, d. split; [exact Hshow|].
    unfold line_of in Hline.
    rewrite lookup_insert_eq, !lookup_insert_ne, Hr, Hd in Hline
      by discriminate.
    exact Hline.
  - intros Hrun. pose proof (remove_outcome name w) as Hout.
    rewrite Hrun in Hout.
    destruct Hout as (repo & entry & Hfile & Hname & _ & Hsaved & _).
    unfold registry_of in Hrows. rewrite Hfile in Hrows. simpl in Hrows.
    destruct (Hrows name entry Hname) as [[r Hr] [d Hd]].
    destruct (show_row name (<["status" := STATUS_NOT_INSTALLED]> entry) repo
                w1 Hsaved Hrows
                (printable_status _ entry (Hrows name entry Hname)))
      as (lines & Hshow & Hline).
    exists lines, r, d. split; [exact Hshow|].
    unfold line_of in Hline.
    rewrite lookup_insert_eq, !lookup_insert_ne, Hr, Hd in Hline
      by discriminate.
    exact Hline.
Qed.

End Listing.

(** * The further properties on the concrete host *)

Import MockTable.
Local Open Scope list_scope.

Lemma pull_stream_fine : Forall (fun line => ~ bad_progress line) pull_stream.
Proof.
  repeat constructor.
  - intros (detail & current & Hdetail & _). discriminate Hdetail.
  - intros (detail & current & Hdetail & _ & Htotal).
    inversion Hdetail; subst detail. destruct Htotal; discriminate.
Qed.

Lemma stream_zero_total_bad : Exists bad_progress stream_zero_total.
Proof.
  constructor. eexists _, 10. split; [reflexivity|]. split; [reflexivity|].
  right. reflexivity.
Qed.

Lemma registry_added_printable :
  map_Forall (fun _ row => printable row) (registry_of world_added).
Proof.
  change (registry_of world_added)
    with (<["acl" := new_metadata "example.com/acl-svc"]> ∅ : Registry).
  apply map_Forall_insert_2; [apply printable_new_metadata|].
  apply map_Forall_empty.
Qed.

Lemma registry_two_rows_printable :
  map_Forall (fun _ row => printable row) (registry_of world_two_rows).
Proof.
  change (registry_of world_two_rows)
    with (<["web" := new_metadata "example.com/web"]>
            (<["acl" := new_metadata "example.com/acl-svc"]> ∅) : Registry).
  repeat (apply map_Forall_insert_2; [apply printable_new_metadata|]).
  apply map_Forall_empty.
Qed.

(** X1 on the host with one repository: the table is echoed again. *)
Lemma show_reads_only_witness :
  exists table,
    stdout (snd (show mock_tabulate world_added)) =
      stdout world_added ++ [Text table] /\
    show mock_tabulate (snd (show mock_tabulate world_added)) =
      (Ok tt, print (Text table) (snd (show mock_tabulate world_added))).
Proof.
  apply (show_reads_only mock_tabulate world_added). reflexivity.
Defined.

(** X2 on the host with two repositories. *)
Lemma show_table_witness :
  exists lines,
    show mock_tabulate world_two_rows =
      (Ok tt, print (Text (mock_tabulate lines REPO_HEADER)) world_two_rows) /\
    length lines = size (registry_of world_two_rows) /\
    (forall line,
       line ∈ lines <->
       exists name row r d,
         registry_of world_two_rows !! name = Some row /\
         row !! "repo" = Some r /\ row !! "description" = Some d /\
         line = [name; r; d;
                 match row !! "status" with
                 | Some status => status
                 | None => "Not installed"
                 end]).
Proof.
  apply (show_table mock_tabulate (registry_of world_two_rows) world_two_rows).
  - reflexivity.
  - exact registry_two_rows_printable.
Defined.

(** X3 on a registry whose row has no description. *)
Lemma show_missing_key_witness :
  exists key,
    show mock_tabulate world_no_description =
      (Raise (KeyError key), world_no_description) /\
    (key = "repo" \/ key = "description").
Proof.
  apply (show_missing_key mock_tabulate
           (<["acl" := <["repo" := "example.com/acl-svc"]> ∅]> ∅)
           "acl" (<["repo" := "example.com/acl-svc"]> ∅)
           world_no_description).
  - reflexivity.
  - reflexivity.
  - right. reflexivity.
Defined.

(** X4 on the fresh host and for a name the registry does not hold. *)
Lemma unknown_service_witness :
  (install "acl" world0 = (Raise Abort, print (Text MSG_EMPTY) world0) /\
   remove "acl" world0 = (Raise Abort, print (Text MSG_EMPTY) world0)) /\
  (install "ghost" world_added =
     (Raise Abort, print (Text (msg_not_found "ghost")) world_added) /\
   remove "ghost" world_added =
     (Raise Abort, print (Text (msg_not_found "ghost")) world_added)).
Proof.
  split.
  - apply (proj1 (unknown_service "acl" world0)). reflexivity.
  - apply (proj2 (unknown_service "ghost" world_added)
             (registry_of world_added)); reflexivity.
Defined.

(** X5 on a registry whose row has no repository. *)
Lemma install_missing_repository_witness :
  install "acl" world_no_repo =
  (Raise Abort, print (Text MSG_PULL_FAILED) world_no_repo).
Proof.
  apply (install_missing_repository "acl" world_no_repo
           (<["acl" := <["description" := "an image"]> ∅]> ∅)
           (<["description" := "an image"]> ∅)); reflexivity.
Defined.

(** X6 on a reference the remote does not offer. *)
Lemma install_pull_fails_witness :
  install "ghost" world_ghost =
  (Raise Abort,
   mkWorld (repo_file world_ghost) (fs world_ghost) docker0
     (stdout world_ghost ++ [Text MSG_PULL_FAILED])
     (calls world_ghost ++ [DockerPull "example.com/none" "latest"])).
Proof.
  apply (install_pull_fails "ghost" world_ghost (registry_of world_ghost)
           (new_metadata "example.com/none")); reflexivity.
Defined.

(** X7 on the daemon whose stream has a zero total. *)
Lemma install_bad_progress_witness :
  exists d,
    install "acl" world_stub =
    (Raise Abort,
     mkWorld (repo_file world_stub) (fs world_stub) d
       (stdout world_stub ++ [Text MSG_PULL_FAILED])
       (calls world_stub ++ [DockerPull "example.com/acl-svc" "latest"])).
Proof.
  refine (install_bad_progress "acl" world_stub
            (<["acl" := new_metadata "example.com/acl-svc"]> ∅)
            (new_metadata "example.com/acl-svc")
            _ _ _ "example.com/acl-svc" _
            stream_zero_total stub _ stream_zero_total_bad);
    reflexivity.
Defined.

(** X8 on the image without a schema file. *)
Lemma install_schema_run_fails_witness :
  install "base" world_debian =
  (Raise Abort,
   mkWorld (repo_file world_debian) (fs world_debian) debian_pulled
     (stdout world_debian ++ [Text MSG_NO_SCHEMA])
     (calls world_debian ++
      [DockerPull "debian" "latest";
       DockerRun "debian" (Some " /schema.json") cat_opts])).
Proof.
  refine (install_schema_run_fails "base" world_debian
            (registry_of world_debian) (new_metadata "debian")
            _ _ _ "debian" _
            pull_stream debian_pulled _ pull_stream_fine
            debian_pulled _);
    reflexivity.
Defined.



(** X11 on the installed host whose container was removed by hand. *)
Lemma remove_container_fails_witness :
  remove "acl" world_container_gone =
  (Raise Abort,
   mkWorld (repo_file world_container_gone)
     (fs (snd (remove_cli "acl" world_container_gone)))
     (docker (snd (remove_cli "acl" world_container_gone)))
     (stdout (snd (remove_cli "acl" world_container_gone)) ++
      [Text MSG_CONTAINER_REMOVE_FAILED])
     (calls (snd (remove_cli "acl" world_container_gone)) ++
      [DockerContainerGet "acl"])).
Proof.
  refine (proj1 (remove_container_fails "acl" world_container_gone
                   (registry_of world_installed)
                   (<["status" := STATUS_INSTALLED]>
                      (new_metadata "example.com/acl-svc"))
                   _ _ _ (snd (remove_cli "acl" world_container_gone)) _) _);
    first [returns | reflexivity].
Defined.

(** X12 on the installed host whose image was removed by hand. *)
Lemma remove_image_fails_witness :
  remove "acl" world_image_gone =
  (Raise Abort,
   mkWorld (repo_file world_image_gone)
     (fs (snd (remove_cli "acl" world_image_gone)))
     {| remote := remote docker0; images := ∅; containers := ∅ |}
     (stdout (snd (remove_cli "acl" world_image_gone)) ++
      [Text "removing Docker image..."; Text MSG_IMAGE_REMOVE_FAILED])
     (calls (snd (remove_cli "acl" world_image_gone)) ++
      [DockerContainerGet "acl"; DockerContainerRemove "acl" true;
       DockerImageRemove "example.com/acl-svc"])).
Proof.
  refine (proj2 (remove_image_fails "acl" world_image_gone
                   (registry_of world_installed)
                   (<["status" := STATUS_INSTALLED]>
                      (new_metadata "example.com/acl-svc"))
                   _ _ _ (snd (remove_cli "acl" world_image_gone)) _
                   {| remote := remote docker0; images := ∅; containers := ∅ |}
                   _ _)
            "example.com/acl-svc"
            {| remote := remote docker0; images := ∅; containers := ∅ |}
            _ _);
    first [returns | reflexivity].
Defined.

(** X14 on the concrete host: scenarios 3 and 5, then a second remove. *)
Lemma remove_after_install_witness :
  exists (repo : Registry) (entry : Entry),
    repo_file world_added = Some repo /\ repo !! "acl" = Some entry /\
    repo_file world_removed =
      Some (<["acl" := <["status" := STATUS_NOT_INSTALLED]> entry]> repo) /\
    remove "acl" world_removed =
      (Raise Abort, print (Text (msg_not_installed "acl")) world_removed).
Proof.
  apply (remove_after_install "acl" world_added world_installed world_removed);
    returns.
Defined.

(** X15 on the fresh host. *)
Lemma addrepo_first_witness :
  exists w' (entry : Entry),
    addrepo "acl" "example.com/acl-svc" world0 = (Ok tt, w') /\
    repo_file w' = Some {["acl" := entry]} /\
    entry !! "repo" = Some "example.com/acl-svc" /\
    entry !! "description" = Some "example.com/acl-svc" /\
    dom entry = ({["repo"; "description"]} : gset string).
Proof.
  apply (addrepo_first "acl" "example.com/acl-svc" world0). reflexivity.
Defined.

(** X16 on the host with one repository: adding [web] keeps the row of
    [acl], and adding a reference that spells [acl] changes the console
    only. *)
Lemma addrepo_frame_witness :
  registry_of (snd (addrepo "web" "example.com/web" world_added)) !! "acl" =
    registry_of world_added !! "acl" /\
  snd (addrepo "web" "acl" world_added) =
    print (Text MSG_REPO_EXISTS) world_added.
Proof.
  split.
  - apply (proj1 (addrepo_frame "web" "example.com/web" world_added)).
    discriminate.
  - apply (proj2 (addrepo_frame "web" "acl" world_added) Abort).
    reflexivity.
Defined.

(** X17 on the fresh host: a service named like its reference is seen by
    the duplicate check, any other is not. *)
Lemma addrepo_again_witness :
  (fst (addrepo "web" "acl" (snd (addrepo "acl" "acl" world0))) = Raise Abort
   <-> "acl" = "acl") /\
  (fst (addrepo "acl2" "example.com/acl-svc" world_added) = Raise Abort
   <-> "example.com/acl-svc" = "acl").
Proof.
  split.
  - apply (addrepo_again "acl" "web" "acl" world0). returns.
  - apply (addrepo_again "acl" "acl2" "example.com/acl-svc" world0). returns.
Defined.

(** X18 on the host with one repository: a completed generation. *)
Lemma generate_cli_trace_witness :
  exists cli entry_point completion l,
    calls (snd (generate_cli "acl" "{}" world_added)) = calls world_added ++ l /\
    l `prefix_of` generate_calls "acl" cli entry_point completion /\
    (fst (generate_cli "acl" "{}" world_added) = Ok tt ->
     l = generate_calls "acl" cli entry_point completion).
Proof.
  exact (generate_cli_trace "acl" "{}" world_added).
Defined.

(** X19 on the host with one repository: [show] after [install acl]. *)
Lemma show_follows_status_witness :
  exists lines r d,
    show mock_tabulate world_installed =
      (Ok tt, print (Text (mock_tabulate lines REPO_HEADER)) world_installed) /\
    ["acl"; r; d; "Installed"] ∈ lines.
Proof.
  apply (proj1 (proj2 (show_follows_status mock_tabulate "acl"
                         "example.com/acl-svc" world_added world_installed
                         registry_added_printable))).
  returns.
Defined.
